(** * LTTB chart sampling of the EV battery health tracker

    A shallow embedding of the sampling code of the tracker: the generic
    [downsampleLTTB], [downsampleMultiSeries] and [adaptiveSample] with
    their key resolution, the chart's own [sampleData] and [shouldShowDots]
    with the chart component's calls of them, and the health badge of the
    analysis panel and of the PDF report, followed by the properties the
    design document states about the samplers and by properties read off
    the code.

    Conventions of the embedding.
    - A JavaScript [number] is an IEEE-754 binary64 value: Rocq's primitive
      [float], whose [+ - * /], [abs] and comparisons are the same
      round-to-nearest-even operations, NaN included.
    - Array lengths, loop counters and array indices are integers below
      2^32; they are kept in [Z] and converted with [ofZ] where the source
      multiplies or divides them as numbers.  [Math.floor] is [floorZ].
    - An object is the list of its enumerable fields in the order
      [for ... in] visits them; a missing field reads as [undefined].
    - An array read outside the array gives [undefined]: [item] returns
      [None], and an output array may hold [None].
    - [throw] and the runtime's [TypeError] are the [Err] results of a small
      error monad.
    - [new Date(s).getTime()] belongs to the host; the samplers take it as
      the parameter [getTime].
    - Line numbers in the comments are those of the source file that holds
      the samplers.

    The file has the definitions first (the JavaScript fragments, the
    samplers, the exact bucket formula of the design document, sample
    inputs), then lemmas on the shape of the sampling path, on the inputs
    whose buckets stay inside the array, on key resolution and on the exact
    formula, then the claims C1 to C10 in order, and last further properties
    of the samplers, of the chart that calls them and of the health badge,
    X1 to X23. *)

From Stdlib Require Import ZArith List String Bool Floats Lia.
Import ListNotations.
Local Open Scope string_scope.
Local Open Scope Z_scope.
Local Open Scope list_scope.

(** ** The JavaScript fragments the samplers use *)

Module Js.

(** The two ways a call can end abnormally: the runtime's [TypeError] (a
    property read on [undefined]) and the sampler's own
    [throw new Error('Could not determine y-axis key for sampling')],
    which the design document calls [ResolutionError]. *)
Inductive error : Type :=
| TypeError
| ResolutionError.

Inductive result (A : Type) : Type :=
| Ok (a : A)
| Err (e : error).

Arguments Ok {A} a.
Arguments Err {A} e.

Definition bind {A B : Type} (c : result A) (k : A -> result B) : result B :=
  match c with
  | Ok a => k a
  | Err e => Err e
  end.

(** An integer-valued number, exact below 2^53. *)
Definition ofZ (z : Z) : float :=
  if z <? 0 then PrimFloat.opp (PrimFloat.of_uint63 (Uint63.of_Z (- z)))
  else PrimFloat.of_uint63 (Uint63.of_Z z).

(** [Math.floor] of a finite number, as an integer.  The samplers only floor
    products of a loop counter and a finite bucket width; a non-finite
    argument is mapped to 0. *)
Definition floorZ (x : float) : Z :=
  match Prim2SF x with
  | S754_finite s m e =>
      let v := if s then Z.neg m else Z.pos m in
      if 0 <=? e then v * 2 ^ e else v / 2 ^ (- e)
  | _ => 0
  end.

(** The values a field holds: a number, a string, or nothing. *)
Inductive value : Type :=
| VUndefined
| VNumber (x : float)
| VString (s : string).

(** [typeof v === 'number'] *)
Definition isNumber (v : value) : bool :=
  match v with
  | VNumber _ => true
  | _ => false
  end.

(** [interface DataPoint { [key: string]: any; ... }] *)
Definition DataPoint : Type := list (string * value).

(** [p[key]] *)
Definition getField (p : DataPoint) (key : string) : value :=
  match find (fun kv => (fst kv =? key)%string) p with
  | Some kv => snd kv
  | None => VUndefined
  end.

(** [key in p] *)
Definition hasField (key : string) (p : DataPoint) : bool :=
  existsb (fun kv => (fst kv =? key)%string) p.

(** The keys [for (const key in p)] visits, in order. *)
Definition keysOf (p : DataPoint) : list string := map fst p.

(** [data[j]]: [None] is [undefined]. *)
Definition item {A : Type} (data : list A) (j : Z) : option A :=
  if j <? 0 then None else nth_error data (Z.to_nat j).

(** [data[j][key]]: a [TypeError] when [data[j]] is [undefined]. *)
Definition fieldAt (data : list DataPoint) (j : Z) (key : string) : result value :=
  match item data j with
  | Some p => Ok (getField p key)
  | None => Err TypeError
  end.

(** [data.length] *)
Definition len {A : Type} (data : list A) : Z := Z.of_nat (List.length data).

(** A key argument counts as supplied when it is a non-empty string:
    [!key] holds for [undefined] and for the empty string alike. *)
Definition supplied (key : option string) : option string :=
  match key with
  | Some k => if (k =? "")%string then None else Some k
  | None => None
  end.

(** The integers [lo, lo+1, ..., hi-1] of a counting loop. *)
Definition range (lo hi : Z) : list Z :=
  map (fun k => lo + Z.of_nat k) (seq 0 (Z.to_nat (hi - lo))).

(** [for (j of js) s = body(j, s)], stopping at the first exception. *)
Fixpoint forEach {S : Type} (body : Z -> S -> result S) (js : list Z) (s : S)
  : result S :=
  match js with
  | [] => Ok s
  | j :: rest => bind (body j s) (forEach body rest)
  end.

End Js.

Import Js.

Notation "x <- c ;; k" := (bind c (fun x => k))
  (at level 61, c at next level, right associativity).

(** ** [data-sampling.ts] *)

(** Area of the triangle spanned by three points (lines 27-36). *)
Definition triangleArea (pointA pointB pointC : float * float) : float :=
  (abs ((fst pointA - fst pointC) * (snd pointB - snd pointA)
        - (fst pointA - fst pointB) * (snd pointC - snd pointA)) / 2)%float.

(** Bucket geometry (lines 86, 93-98): [n] is [data.length], [threshold] the
    clamped target size. *)
Definition bucketSize (n threshold : Z) : float :=
  (ofZ (n - 2) / ofZ (threshold - 2))%float.

Definition bucketStart (n threshold i : Z) : Z :=
  floorZ (ofZ i * bucketSize n threshold)%float + 1.

Definition bucketEnd (n threshold i : Z) : Z :=
  floorZ (ofZ (i + 1) * bucketSize n threshold)%float + 1.

Definition nextBucketStart (n threshold i : Z) : Z :=
  floorZ (ofZ (i + 1) * bucketSize n threshold)%float + 1.

Definition nextBucketEnd (n threshold i : Z) : Z :=
  Z.min (floorZ (ofZ (i + 2) * bucketSize n threshold)%float + 1) n.

(** The sampler's loop state.  [picked] is a ghost field: the source index
    of every element pushed onto [sampled], in push order. *)
Record LoopState (T : Type) : Type := mkLoop {
  sampled : list (option T);
  picked : list Z;
  prevSelectedIndex : Z
}.

Arguments mkLoop {T} _ _ _.
Arguments sampled {T} _.
Arguments picked {T} _.
Arguments prevSelectedIndex {T} _.

(** [sampled.push(data[j])] *)
Definition push {T : Type} (data : list T) (j : Z) (st : LoopState T) : LoopState T :=
  mkLoop (sampled st ++ [item data j]) (picked st ++ [j]) (prevSelectedIndex st).

Section Sampling.

Variable getTime : string -> float.

(** The x coordinate of a field value (lines 110, 123-125, 133-135): a
    string goes through [Date]; [undefined] in arithmetic is NaN. *)
Definition xNum (v : value) : float :=
  match v with
  | VString s => getTime s
  | VNumber x => x
  | VUndefined => nan
  end.

(** The y coordinate of a field value in arithmetic.  A string there is
    coerced by concatenation and [ToNumber] in JavaScript; the embedding
    does not follow numeric strings and reads every string as NaN.  The
    coordinates only decide which index of a bucket is selected: the general
    lemmas below hold for any selection, and the evaluated inputs have
    numeric y fields. *)
Definition yNum (v : value) : float :=
  match v with
  | VNumber y => y
  | _ => nan
  end.

(** Lines 62-64. *)
Definition resolveXKey (data : list DataPoint) (xKey : option string) : result string :=
  match supplied xKey with
  | Some k => Ok k
  | None =>
      match item data 0 with
      | Some p0 => Ok (if hasField "time" p0 then "time" else "timestamp")
      | None => Err TypeError
      end
  end.

(** The scan of lines 68-73: the first key that is not the x key and holds
    a number. *)
Definition firstNumericKey (p0 : DataPoint) (xKey : string) : option string :=
  find (fun key => negb (key =? xKey)%string && isNumber (getField p0 key)) (keysOf p0).

(** Lines 66-78. *)
Definition resolveYKey (data : list DataPoint) (xKey : string) (yKey : option string)
  : result string :=
  let yKey' :=
    match supplied yKey with
    | Some k => Some k
    | None =>
        match item data 0 with
        | Some p0 => firstNumericKey p0 xKey
        | None => None
        end
    end in
  match supplied yKey' with
  | Some k => Ok k
  | None => Err ResolutionError
  end.

(** Lines 100-120: the average point of the next bucket. *)
Definition averageStep (data : list DataPoint) (xKey yKey : string)
  (j : Z) (acc : float * float * Z) : result (float * float * Z) :=
  let '(avgX, avgY, avgRangeLength) := acc in
  xVal <- fieldAt data j xKey ;;
  yVal <- fieldAt data j yKey ;;
  Ok ((avgX + xNum xVal)%float, (avgY + yNum yVal)%float, avgRangeLength + 1).

Definition nextBucketAverage (data : list DataPoint) (xKey yKey : string)
  (threshold i : Z) : result (float * float) :=
  let n := len data in
  acc <- forEach (averageStep data xKey yKey)
           (range (nextBucketStart n threshold i) (nextBucketEnd n threshold i))
           (0%float, 0%float, 0) ;;
  let '(avgX, avgY, avgRangeLength) := acc in
  if 0 <? avgRangeLength
  then Ok ((avgX / ofZ avgRangeLength)%float, (avgY / ofZ avgRangeLength)%float)
  else Ok (avgX, avgY).

(** Lines 128-148: the candidate of the current bucket with the largest
    triangle. *)
Definition selectStep (data : list DataPoint) (xKey yKey : string)
  (prev avg : float * float) (j : Z) (best : float * Z) : result (float * Z) :=
  let '(maxArea, maxAreaIndex) := best in
  currX <- fieldAt data j xKey ;;
  currY <- fieldAt data j yKey ;;
  let area := triangleArea prev (xNum currX, yNum currY) avg in
  if (maxArea <? area)%float then Ok (area, j) else Ok (maxArea, maxAreaIndex).

(** Lines 91-152: one iteration of the bucket loop. *)
Definition bucketStep (data : list DataPoint) (xKey yKey : string) (threshold : Z)
  (i : Z) (st : LoopState DataPoint) : result (LoopState DataPoint) :=
  let n := len data in
  avg <- nextBucketAverage data xKey yKey threshold i ;;
  prevX <- fieldAt data (prevSelectedIndex st) xKey ;;
  prevY <- fieldAt data (prevSelectedIndex st) yKey ;;
  best <- forEach (selectStep data xKey yKey (xNum prevX, yNum prevY) avg)
            (range (bucketStart n threshold i) (bucketEnd n threshold i))
            ((-1)%float, bucketStart n threshold i) ;;
  let maxAreaIndex := snd best in
  Ok (mkLoop (sampled st ++ [item data maxAreaIndex])
             (picked st ++ [maxAreaIndex])
             maxAreaIndex).

(** Lines 58-157: the sampling path, with the final loop state. *)
Definition lttbRun (data : list DataPoint) (threshold : Z)
  (xKey yKey : option string) : result (LoopState DataPoint) :=
  let threshold := Z.max 3 threshold in
  xKey <- resolveXKey data xKey ;;
  yKey <- resolveYKey data xKey yKey ;;
  let st0 := push data 0 (mkLoop [] [] 0) in
  st <- forEach (bucketStep data xKey yKey threshold) (range 0 (threshold - 2)) st0 ;;
  Ok (push data (len data - 1) st).

(** [downsampleLTTB(data, threshold, xKey?, yKey?)] (lines 47-158). *)
Definition downsampleLTTB (data : list DataPoint) (threshold : Z)
  (xKey yKey : option string) : result (list (option DataPoint)) :=
  if len data <=? threshold then Ok (map Some data)
  else st <- lttbRun data threshold xKey yKey ;; Ok (sampled st).

(** The source indices [downsampleLTTB] emits, in order. *)
Definition downsampleIndices (data : list DataPoint) (threshold : Z)
  (xKey yKey : option string) : result (list Z) :=
  if len data <=? threshold then Ok (range 0 (len data))
  else st <- lttbRun data threshold xKey yKey ;; Ok (picked st).

End Sampling.

(** [interface SamplingConfig] (lines 186-191). *)
Record SamplingConfig : Type := mkConfig {
  threshold : Z;
  targetPoints : Z
}.

(** [Partial<SamplingConfig>]: each field present or absent. *)
Record PartialConfig : Type := mkPartial {
  threshold_given : option Z;
  targetPoints_given : option Z
}.

(** Lines 196-199. *)
Definition DEFAULT_SAMPLING_CONFIG : SamplingConfig :=
  {| threshold := 500; targetPoints := 300 |}.

(** [{ ...defaults, ...config }] *)
Definition spread (defaults : SamplingConfig) (config : PartialConfig) : SamplingConfig :=
  {| threshold := match threshold_given config with
                  | Some t => t
                  | None => threshold defaults
                  end;
     targetPoints := match targetPoints_given config with
                     | Some p => p
                     | None => targetPoints defaults
                     end |}.

(** [interface BatteryReading] of [types.ts]. *)
Record BatteryReading : Type := mkReading {
  timestamp : string;
  voltage : float;
  temperature : float
}.

(** A reading seen as a [DataPoint]: the object [parseCSV] builds, fields in
    the order of its literal. *)
Definition asDataPoint (r : BatteryReading) : DataPoint :=
  [("timestamp", VString (timestamp r));
   ("voltage", VNumber (voltage r));
   ("temperature", VNumber (temperature r))].

(** [data[j]] followed by a field read. *)
Definition readingAt (data : list BatteryReading) (j : Z) : result BatteryReading :=
  match item data j with
  | Some r => Ok r
  | None => Err TypeError
  end.

Section ChartSampling.

Variable getTime : string -> float.

(** [adaptiveSample(data, config = {}, xKey?, yKey?)] (lines 204-217). *)
Definition adaptiveSample (data : list DataPoint) (config : PartialConfig)
  (xKey yKey : option string) : result (list (option DataPoint)) :=
  let cfg := spread DEFAULT_SAMPLING_CONFIG config in
  if len data <=? threshold cfg then Ok (map Some data)
  else downsampleLTTB getTime data (targetPoints cfg) xKey yKey.

(** Lines 254-257 of [sampleData]. *)
Definition sumStep (data : list BatteryReading) (j : Z) (acc : float * float)
  : result (float * float) :=
  r <- readingAt data j ;;
  Ok ((fst acc + getTime (timestamp r))%float, (snd acc + voltage r)%float).

(** Lines 272-286 of [sampleData]. *)
Definition areaStep (data : list BatteryReading)
  (pointAX pointAY avgX avgY : float) (j : Z) (best : float * Z) : result (float * Z) :=
  let '(maxArea, maxAreaPoint) := best in
  r <- readingAt data j ;;
  let pointX := getTime (timestamp r) in
  let pointY := voltage r in
  let area := (abs ((pointAX - avgX) * (pointY - pointAY)
                    - (pointAX - pointX) * (avgY - pointAY)) * 0.5)%float in
  if (maxArea <? area)%float then Ok (area, j) else Ok (maxArea, maxAreaPoint).

(** Lines 244-290: one iteration of [sampleData]'s loop; the state's
    [prevSelectedIndex] is the source's [a]. *)
Definition sampleStep (data : list BatteryReading) (threshold : Z)
  (i : Z) (st : LoopState BatteryReading) : result (LoopState BatteryReading) :=
  let n := len data in
  let avgRangeStart := floorZ (ofZ (i + 1) * bucketSize n threshold)%float + 1 in
  let avgRangeEnd := floorZ (ofZ (i + 2) * bucketSize n threshold)%float + 1 in
  let avgRangeEnd := if avgRangeEnd <? n then avgRangeEnd else n in
  let avgRangeLength := avgRangeEnd - avgRangeStart in
  sums <- forEach (sumStep data) (range avgRangeStart avgRangeEnd) (0%float, 0%float) ;;
  let avgX := (fst sums / ofZ avgRangeLength)%float in
  let avgY := (snd sums / ofZ avgRangeLength)%float in
  let rangeOffs := floorZ (ofZ i * bucketSize n threshold)%float + 1 in
  let rangeTo := floorZ (ofZ (i + 1) * bucketSize n threshold)%float + 1 in
  pointA <- readingAt data (prevSelectedIndex st) ;;
  let pointAX := getTime (timestamp pointA) in
  let pointAY := voltage pointA in
  best <- forEach (areaStep data pointAX pointAY avgX avgY)
            (range rangeOffs rangeTo) ((-1)%float, 0) ;;
  let maxAreaPoint := snd best in
  Ok (mkLoop (sampled st ++ [item data maxAreaPoint])
             (picked st ++ [maxAreaPoint])
             maxAreaPoint).

Definition sampleRun (data : list BatteryReading) (threshold : Z)
  : result (LoopState BatteryReading) :=
  let st0 := push data 0 (mkLoop [] [] 0) in
  st <- forEach (sampleStep data threshold) (range 0 (threshold - 2)) st0 ;;
  Ok (push data (len data - 1) st).

(** [sampleData(data, threshold)] (lines 229-295). *)
Definition sampleData (data : list BatteryReading) (threshold : Z)
  : result (list (option BatteryReading)) :=
  if len data <=? threshold then Ok (map Some data)
  else st <- sampleRun data threshold ;; Ok (sampled st).

(** [sampleData(data)]: the parameter's default (line 229). *)
Definition sampleDataDefault (data : list BatteryReading)
  : result (list (option BatteryReading)) :=
  sampleData data 500.

(** The source indices [sampleData] emits, in order. *)
Definition sampleIndices (data : list BatteryReading) (threshold : Z)
  : result (list Z) :=
  if len data <=? threshold then Ok (range 0 (len data))
  else st <- sampleRun data threshold ;; Ok (picked st).

End ChartSampling.

(** [shouldShowDots(dataLength)] (lines 302-304). *)
Definition shouldShowDots (dataLength : Z) : bool := dataLength <=? 100.

(** ** The bucket formula of the design document

    Section 4.2 of the design document states the partition with a
    real-valued width [w = (n - 2) / (t - 2)]: bucket [i] is
    [[floor(i*w) + 1, floor((i+1)*w) + 1)].  Over the rationals
    [floor (i * w)] is the integer quotient below; [Exact] is that formula
    without rounding, to compare the binary64 computation of the source
    against. *)

Module Exact.

Definition boundary (n t i : Z) : Z := (i * (n - 2)) / (t - 2).

Definition bucketStart (n t i : Z) : Z := boundary n t i + 1.

Definition bucketEnd (n t i : Z) : Z := boundary n t (i + 1) + 1.

Definition nextBucketStart (n t i : Z) : Z := boundary n t (i + 1) + 1.

Definition nextBucketEnd (n t i : Z) : Z := Z.min (boundary n t (i + 2) + 1) n.

End Exact.

(** Index [x] lies in bucket [i] as the source computes it. *)
Definition inBucket (n threshold i x : Z) : bool :=
  (bucketStart n threshold i <=? x) && (x <? bucketEnd n threshold i).

(** Every bucket the source computes for length [n] and target size
    [threshold] is a non-empty range of interior indices.  The check looks
    at [n] and [threshold] only, not at the data. *)
Definition bucketsInside (n threshold : Z) : bool :=
  forallb (fun i => (1 <=? bucketStart n threshold i)
                    && (bucketStart n threshold i <? bucketEnd n threshold i)
                    && (bucketEnd n threshold i <=? n - 1))
          (range 0 (threshold - 2)).

(** The binary64 bucket boundaries agree with the exact ones for a given
    length and target size. *)
Definition roundsExactly (n threshold : Z) : bool :=
  forallb (fun i => floorZ (ofZ i * bucketSize n threshold)%float =? Exact.boundary n threshold i)
          (range 0 (threshold + 1)).

(** Strictly increasing index lists. *)
Fixpoint increasing (js : list Z) : bool :=
  match js with
  | [] => true
  | j :: rest =>
      match rest with
      | [] => true
      | j' :: _ => (j <? j') && increasing rest
      end
  end.

(** What the bucket loop keeps true before bucket [i]: the indices picked
    so far start with 0, are inside the array and strictly increasing, the
    last of them is [prevSelectedIndex], and it lies below bucket [i]. *)
Definition ordered (data : list DataPoint) (t i : Z) (st : LoopState DataPoint) : Prop :=
  (exists front, picked st = front ++ [prevSelectedIndex st])
  /\ (exists rest, picked st = 0 :: rest)
  /\ increasing (picked st) = true
  /\ Forall (fun j => 0 <= j < len data) (picked st)
  /\ List.length (picked st) = Z.to_nat (i + 1)
  /\ 0 <= prevSelectedIndex st <= len data - 2
  /\ (i < t - 2 -> prevSelectedIndex st < bucketStart (len data) t i).

(** ** Sample inputs *)

Module Samples.

(** A host clock that knows the first minutes of 2024 (epoch milliseconds,
    UTC) and, like [Date], answers NaN for text that is no date. *)
Definition minutes : list (string * Z) :=
  [("2024-01-01T00:00:00Z", 1704067200000);
   ("2024-01-01T00:01:00Z", 1704067260000);
   ("2024-01-01T00:02:00Z", 1704067320000);
   ("2024-01-01T00:03:00Z", 1704067380000)].

Definition clock (s : string) : float :=
  match find (fun kv => (fst kv =? s)%string) minutes with
  | Some kv => ofZ (snd kv)
  | None => nan
  end.

(** [{ time: t, value: v }] *)
Definition point (t v : Z) : DataPoint :=
  [("time", VNumber (ofZ t)); ("value", VNumber (ofZ v))].

(** [{ a: a, b: b }]: neither [time] nor [timestamp]. *)
Definition unkeyed (a b : Z) : DataPoint :=
  [("a", VNumber (ofZ a)); ("b", VNumber (ofZ b))].

(** [{ timestamp: ts, "": blank, value: v }]: the first numeric field is
    the one named by the empty string. *)
Definition blankColumn (ts : string) (blank v : Z) : DataPoint :=
  [("timestamp", VString ts); ("", VNumber (ofZ blank)); ("value", VNumber (ofZ v))].

Definition twoPoints : list DataPoint := [point 0 1; point 1 5].

Definition onePoint : list DataPoint := [point 0 1].

(** [n] points [{time: k, value: k*k mod 7}]. *)
Definition wave (n : Z) : list DataPoint :=
  map (fun k => point k ((k * k) mod 7)) (range 0 n).

Definition fourUnkeyed : list DataPoint :=
  [unkeyed 0 1; unkeyed 1 4; unkeyed 2 2; unkeyed 3 3].

Definition fourBlank : list DataPoint :=
  [blankColumn "2024-01-01T00:00:00Z" 7 1;
   blankColumn "2024-01-01T00:01:00Z" 8 4;
   blankColumn "2024-01-01T00:02:00Z" 9 2;
   blankColumn "2024-01-01T00:03:00Z" 6 3].

(** Readings whose timestamps are no dates: [parseCSV] keeps the
    timestamp column as it is. *)
Definition undated (v : Z) : BatteryReading :=
  mkReading "n/a" (ofZ v) (ofZ 25).

Definition fourUndated : list BatteryReading :=
  [undated 12; undated 13; undated 11; undated 12].

(** Four readings a minute apart. *)
Definition fourDated : list BatteryReading :=
  [mkReading "2024-01-01T00:00:00Z" (ofZ 12) (ofZ 25);
   mkReading "2024-01-01T00:01:00Z" (ofZ 11) (ofZ 26);
   mkReading "2024-01-01T00:02:00Z" (ofZ 14) (ofZ 26);
   mkReading "2024-01-01T00:03:00Z" (ofZ 12) (ofZ 27)].

(** [n] points on a flat line with one peak of height 1000 at index [at_]. *)
Definition peak (n at_ : Z) : list DataPoint :=
  map (fun k => point k (if k =? at_ then 1000 else 1)) (range 0 n).

End Samples.

(** ** The other entry points and the chart that calls the sampler *)

Section Callers.

Variable getTime : string -> float.

(** [downsampleMultiSeries(data, threshold, xKey?, yKeys?)] (lines
    164-181).  [yKeys] is [None] where the argument is left out; [yKeys[0]]
    of a non-empty array is its head. *)
Definition downsampleMultiSeries (data : list DataPoint) (threshold : Z)
  (xKey : option string) (yKeys : option (list string))
  : result (list (option DataPoint)) :=
  if len data <=? threshold then Ok (map Some data)
  else
    match yKeys with
    | None | Some [] => downsampleLTTB getTime data threshold xKey None
    | Some (yKey :: _) => downsampleLTTB getTime data threshold xKey (Some yKey)
    end.

(** The chart component (BatteryCharts.tsx, lines 27-29 and 40): what it
    plots and whether it draws a dot on each point. *)
Definition sampledReadings (readings : list BatteryReading)
  : result (list (option BatteryReading)) :=
  sampleData getTime readings 500.

Definition showDots (readings : list BatteryReading) : bool :=
  shouldShowDots (len readings).

End Callers.

(** ** The areas the selection loops compare *)

Section Areas.

Variable getTime : string -> float.


(** The same for [sampleData] (lines 274-280). *)
Definition chartArea (data : list BatteryReading)
  (pointAX pointAY avgX avgY : float) (j : Z) : float :=
  match item data j with
  | Some r =>
      (abs ((pointAX - avgX) * (voltage r - pointAY)
            - (pointAX - getTime (timestamp r)) * (avgY - pointAY)) * 0.5)%float
  | None => nan
  end.

End Areas.

(** ** The order of numbers

    The place of a number that is not NaN in the order of [<]: the sign
    class first, then exponent and mantissa. *)
Definition rank (r : spec_float) : Z * Z * Z :=
  match r with
  | S754_nan => (0, 0, 0)
  | S754_zero _ => (0, 0, 0)
  | S754_infinity s => (if s then -2 else 2, 0, 0)
  | S754_finite s m e => if s then (-1, - e, Z.neg m) else (1, e, Z.pos m)
  end.

Definition below (a b : Z * Z * Z) : Prop :=
  let '(a1, a2, a3) := a in
  let '(b1, b2, b3) := b in
  a1 < b1 \/ (a1 = b1 /\ (a2 < b2 \/ (a2 = b2 /\ a3 < b3))).

(** NaN, or a number whose sign bit is clear. *)
Definition unsigned (r : spec_float) : Prop :=
  match r with
  | S754_nan => True
  | S754_zero s | S754_infinity s | S754_finite s _ _ => s = false
  end.

(** ** Loop invariants

    After [i] iterations the loop has pushed index 0 and one index per
    bucket, each related to its bucket by [ok]; the last one pushed is
    inside the array. *)
Definition perBucket {T : Type} (ok : Z -> Z -> Prop) (n i : Z) (st : LoopState T) : Prop :=
  0 <= prevSelectedIndex st < n
  /\ exists mids,
       picked st = 0 :: mids
       /\ len mids = i
       /\ forall b j, item mids b = Some j -> ok b j.

(** [downsampleLTTB] on coordinates that are NaN: the start of every
    bucket so far. *)
Definition firsts (n t i : Z) (st : LoopState DataPoint) : Prop :=
  picked st = 0 :: map (bucketStart n t) (range 0 i)
  /\ 0 <= prevSelectedIndex st < n.

(** [sampleData] on a first reading whose coordinates are NaN: that
    reading again. *)
Definition stuck (first : BatteryReading) (i : Z) (st : LoopState BatteryReading) : Prop :=
  sampled st = repeat (Some first) (Z.to_nat (i + 1))
  /\ prevSelectedIndex st = 0.

(** ** The health badge

    [score >= bound] on numbers is [bound <=? score]: false when the score
    is NaN. *)

Module AnalysisPanel.

(** [getHealthColor] (AnalysisPanel.tsx, lines 51-55). *)
Definition getHealthColor (score : float) : string :=
  if (80 <=? score)%float then "bg-green-500"
  else if (60 <=? score)%float then "bg-yellow-500"
  else "bg-red-500".

(** [getHealthLabel] (AnalysisPanel.tsx, lines 57-62). *)
Definition getHealthLabel (score : float) : string :=
  if (80 <=? score)%float then "Excellent"
  else if (60 <=? score)%float then "Good"
  else if (40 <=? score)%float then "Fair"
  else "Poor".

End AnalysisPanel.

Module PdfExport.

(** [healthLabel] and [healthColor] of [generatePDFReport] (pdf-export.ts,
    lines 46-50). *)
Definition healthLabel (healthScore : float) : string :=
  if (80 <=? healthScore)%float then "Excellent"
  else if (60 <=? healthScore)%float then "Good"
  else if (40 <=? healthScore)%float then "Fair"
  else "Poor".

Definition healthColor (healthScore : float) : Z * Z * Z :=
  if (80 <=? healthScore)%float then (34, 197, 94)
  else if (60 <=? healthScore)%float then (234, 179, 8)
  else (239, 68, 68).

End PdfExport.

(** ** More sample inputs *)

Module Telemetry.

(** [n] readings without a date, voltages 12, 13, 14, 12, ... *)
Definition undatedRun (n : Z) : list BatteryReading :=
  map (fun k => Samples.undated (12 + k mod 3)) (range 0 n).

(** Four records whose only fields are [time] and a label. *)
Definition labelled : list DataPoint :=
  [[("time", VNumber (ofZ 0)); ("label", VString "a")];
   [("time", VNumber (ofZ 1)); ("label", VString "b")];
   [("time", VNumber (ofZ 2)); ("label", VString "c")];
   [("time", VNumber (ofZ 3)); ("label", VString "d")]].

(** Six records [{a, b}] with the largest [b] at index 2. *)
Definition sixUnkeyed : list DataPoint :=
  [Samples.unkeyed 0 1; Samples.unkeyed 1 1; Samples.unkeyed 2 900;
   Samples.unkeyed 3 1; Samples.unkeyed 4 1; Samples.unkeyed 5 1].

End Telemetry.

(** ** Proof tools *)

(** Peels the binds off a hypothesis [H : c >>= k = Ok b]: every step [c]
    returned some [a], recorded as [Ha : c = Ok a]. *)
Ltac unbind H :=
  repeat match type of H with
         | bind ?c _ = Ok _ =>
             let a := fresh "a" in
             let Ha := fresh "Ha" in
             destruct c as [a | ?] eqn:Ha; [cbn [bind] in H | discriminate H]
         end.

(** Splits a hypothesis [H : c >>= k = Err e] by the step that failed: one
    goal per step [c], with [c = Err e] as its last hypothesis, and a last
    goal where every step returned and [H] is what remains. *)
Ltac unbind_err H :=
  repeat match type of H with
         | bind ?c _ = Err _ =>
             let a := fresh "a" in
             let Ha := fresh "Ha" in
             destruct c as [a | ?] eqn:Ha;
             [cbn [bind] in H | cbn [bind] in H; injection H as ->]
         end.

Lemma bind_Ok {A B : Type} (c : result A) (k : A -> result B) (b : B) :
  bind c k = Ok b -> exists a, c = Ok a /\ k a = Ok b.
Proof.
  destruct c as [a | e]; simpl; intros H; [eauto | discriminate].
Qed.

Lemma bind_Err {A B : Type} (c : result A) (k : A -> result B) (e : error) :
  bind c k = Err e -> c = Err e \/ exists a, c = Ok a /\ k a = Err e.
Proof.
  destruct c as [a | e']; simpl; intros H; [right; eauto | left; congruence].
Qed.

Lemma range_length (lo hi : Z) : List.length (range lo hi) = Z.to_nat (hi - lo).
Proof. unfold range. now rewrite length_map, length_seq. Qed.

Lemma len_app {A : Type} (l1 l2 : list A) : len (l1 ++ l2) = len l1 + len l2.
Proof. unfold len. rewrite length_app. lia. Qed.

Lemma len_nonneg {A : Type} (l : list A) : 0 <= len l.
Proof. unfold len. lia. Qed.

Lemma item_head {A : Type} (x : A) (l : list A) : item (x :: l) 0 = Some x.
Proof. reflexivity. Qed.

Lemma item_last {A : Type} (l : list A) (x : A) :
  item (l ++ [x]) (len (l ++ [x]) - 1) = Some x.
Proof.
  unfold item. rewrite len_app. change (len [x]) with 1.
  pose proof (len_nonneg l) as Hl.
  destruct (len l + 1 - 1 <? 0) eqn:E; [apply Z.ltb_lt in E; lia |].
  replace (Z.to_nat (len l + 1 - 1)) with (List.length l) by (unfold len; lia).
  now rewrite nth_error_app2, Nat.sub_diag by lia.
Qed.

(** A loop whose every iteration pushes exactly one element pushes as many
    elements as it has iterations, after what was there before. *)
Lemma forEach_pushes {T : Type} (body : Z -> LoopState T -> result (LoopState T)) :
  (forall j s s', body j s = Ok s' ->
     exists k, sampled s' = sampled s ++ [k]) ->
  forall js s s', forEach body js s = Ok s' ->
    exists mid, sampled s' = sampled s ++ mid /\ List.length mid = List.length js.
Proof.
  intros Hstep js. induction js as [| j rest IH]; simpl; intros s s' H.
  - inversion H; subst. exists []. now rewrite app_nil_r.
  - apply bind_Ok in H. destruct H as (s1 & H1 & H2).
    destruct (Hstep _ _ _ H1) as (k & Hk).
    destruct (IH _ _ H2) as (mid & Hmid & Hlen).
    exists (k :: mid). split; [| simpl; congruence].
    rewrite Hmid, Hk, <- app_assoc. reflexivity.
Qed.

Lemma forEach_invariant {S : Type} (P : S -> Prop) (body : Z -> S -> result S) :
  (forall j s s', P s -> body j s = Ok s' -> P s') ->
  forall js s s', P s -> forEach body js s = Ok s' -> P s'.
Proof.
  intros Hstep js. induction js as [| j rest IH]; simpl; intros s s' Hs H.
  - inversion H; subst; assumption.
  - apply bind_Ok in H. destruct H as (s1 & H1 & H2). eauto.
Qed.

(** ** Shape of the sampling path *)

Section Shape.

Variable getTime : string -> float.

Lemma bucketStep_pushes data xKey yKey t i st st' :
  bucketStep getTime data xKey yKey t i st = Ok st' ->
  exists k, sampled st' = sampled st ++ [k].
Proof.
  unfold bucketStep. intros H. unbind H.
  inversion H; subst; simpl. eauto.
Qed.

Lemma bucketStep_ghost data xKey yKey t i st st' :
  sampled st = map (item data) (picked st) ->
  bucketStep getTime data xKey yKey t i st = Ok st' ->
  sampled st' = map (item data) (picked st').
Proof.
  unfold bucketStep. intros Hg H. unbind H.
  inversion H; subst; simpl. now rewrite map_app, Hg.
Qed.

(** The sampling path emits [data[0]], one element per loop iteration, and
    [data[data.length - 1]]. *)
Lemma lttbRun_shape data t xKey yKey st :
  lttbRun getTime data t xKey yKey = Ok st ->
  exists mid,
    sampled st = item data 0 :: mid ++ [item data (len data - 1)]
    /\ List.length mid = Z.to_nat (Z.max 3 t - 2).
Proof.
  unfold lttbRun. intros H. unbind H.
  inversion H; subst; clear H.
  apply forEach_pushes in Ha1; [| intros; eapply bucketStep_pushes; eassumption].
  destruct Ha1 as (mid & Hmid & Hlen).
  exists mid. simpl. rewrite Hmid. simpl.
  now rewrite range_length, Z.sub_0_r in Hlen.
Qed.

(** The ghost index list describes the emitted elements. *)
Lemma lttbRun_ghost data t xKey yKey st :
  lttbRun getTime data t xKey yKey = Ok st ->
  sampled st = map (item data) (picked st).
Proof.
  unfold lttbRun. intros H. unbind H.
  inversion H; subst; clear H. simpl.
  rewrite map_app. simpl. f_equal.
  eapply (forEach_invariant (fun s => sampled s = map (item data) (picked s)));
    [| | exact Ha1]; [| reflexivity].
  intros j s s' Hs Hb. eapply bucketStep_ghost; eassumption.
Qed.

Lemma passthrough_items {A : Type} (data : list A) :
  map (item data) (range 0 (len data)) = map Some data.
Proof.
  unfold range, len. rewrite Z.sub_0_r, Nat2Z.id, map_map.
  induction data as [| x rest IH] using rev_ind; [reflexivity |].
  rewrite length_app. simpl List.length. rewrite Nat.add_1_r.
  rewrite seq_S, !map_app. simpl. f_equal.
  - rewrite <- IH. apply map_ext_in. intros k Hk. apply in_seq in Hk.
    unfold item. change (0 + Z.of_nat k) with (Z.of_nat k).
    destruct (Z.of_nat k <? 0) eqn:E; [apply Z.ltb_lt in E; lia |].
    rewrite Nat2Z.id. apply nth_error_app1. lia.
  - unfold item. change (0 + Z.of_nat (List.length rest)) with (Z.of_nat (List.length rest)).
    destruct (Z.of_nat (List.length rest) <? 0) eqn:E; [apply Z.ltb_lt in E; lia |].
    rewrite Nat2Z.id, nth_error_app2, Nat.sub_diag by lia. reflexivity.
Qed.

(** [downsampleIndices] lists the source index of every element
    [downsampleLTTB] returns. *)
Lemma downsampleIndices_sound data t xKey yKey js :
  downsampleIndices getTime data t xKey yKey = Ok js ->
  downsampleLTTB getTime data t xKey yKey = Ok (map (item data) js).
Proof.
  unfold downsampleIndices, downsampleLTTB.
  destruct (len data <=? t).
  - intros H. inversion H; subst. now rewrite passthrough_items.
  - intros H. unbind H. inversion H; subst. simpl.
    now rewrite (lttbRun_ghost _ _ _ _ _ Ha).
Qed.

(** Passthrough: at or below the threshold the input comes back as it is. *)
Lemma downsampleLTTB_passthrough data t xKey yKey :
  len data <= t ->
  downsampleLTTB getTime data t xKey yKey = Ok (map Some data).
Proof.
  intros H. unfold downsampleLTTB.
  now apply Z.leb_le in H as ->.
Qed.

Lemma downsampleLTTB_shape data t xKey yKey out :
  t < len data ->
  downsampleLTTB getTime data t xKey yKey = Ok out ->
  exists mid,
    out = item data 0 :: mid ++ [item data (len data - 1)]
    /\ List.length mid = Z.to_nat (Z.max 3 t - 2).
Proof.
  intros Hlt. unfold downsampleLTTB.
  destruct (len data <=? t) eqn:E; [apply Z.leb_le in E; lia |].
  intros H. unbind H. inversion H; subst.
  eapply lttbRun_shape; eassumption.
Qed.

(** Above the threshold a returned sequence has [max(3, threshold)]
    elements. *)
Lemma downsampleLTTB_length data t xKey yKey out :
  t < len data ->
  downsampleLTTB getTime data t xKey yKey = Ok out ->
  len out = Z.max 3 t.
Proof.
  intros Hlt H. destruct (downsampleLTTB_shape _ _ _ _ _ Hlt H) as (mid & -> & Hlen).
  unfold len. simpl. rewrite length_app, Hlen. simpl. lia.
Qed.

End Shape.

(** For an input of at least three elements that is the size the design
    document gives, [min(len, max(3, threshold))], on both paths. *)
Lemma downsampleLTTB_length_from_three
  (getTime : string -> float) (data : list DataPoint) (t : Z)
  (xKey yKey : option string) (out : list (option DataPoint)) :
  3 <= len data ->
  downsampleLTTB getTime data t xKey yKey = Ok out ->
  len out = if len data <=? t then len data else Z.min (len data) (Z.max 3 t).
Proof.
  intros H3 H. destruct (len data <=? t) eqn:E.
  - apply Z.leb_le in E.
    rewrite downsampleLTTB_passthrough in H by assumption.
    inversion H; subst. unfold len. now rewrite length_map.
  - apply Z.leb_gt in E.
    rewrite (downsampleLTTB_length _ _ _ _ _ _ E H). lia.
Qed.

(** Below three elements the sampling path still emits three: for two
    points and a threshold below 2 the clamped loop runs once over the empty
    bucket [[1, 1)], keeps [maxAreaIndex] at 1, and the last point is pushed
    twice, whatever the points hold. *)
Lemma downsampleLTTB_two_points
  (getTime : string -> float) (p0 p1 : DataPoint) (t : Z)
  (xKey yKey : option string) (xk yk : string) :
  t < 2 ->
  resolveXKey [p0; p1] xKey = Ok xk ->
  resolveYKey [p0; p1] xk yKey = Ok yk ->
  downsampleLTTB getTime [p0; p1] t xKey yKey = Ok [Some p0; Some p1; Some p1].
Proof.
  intros Ht Hx Hy. unfold downsampleLTTB.
  change (len [p0; p1]) with 2.
  destruct (2 <=? t) eqn:E; [apply Z.leb_le in E; lia |].
  unfold lttbRun. rewrite Hx. cbn [bind]. rewrite Hy. cbn [bind].
  replace (Z.max 3 t) with 3 by lia.
  vm_compute. reflexivity.
Qed.

(** The chart sampler has the same shape, without the clamp: its loop
    runs [threshold - 2] times, or not at all. *)

Section ChartShape.

Variable getTime : string -> float.

Lemma sampleStep_pushes data t i st st' :
  sampleStep getTime data t i st = Ok st' ->
  exists k, sampled st' = sampled st ++ [k].
Proof.
  unfold sampleStep. intros H. unbind H.
  inversion H; subst; simpl. eauto.
Qed.

Lemma sampleData_passthrough data t :
  len data <= t -> sampleData getTime data t = Ok (map Some data).
Proof.
  intros H. unfold sampleData. now apply Z.leb_le in H as ->.
Qed.

(** Above the threshold a returned sequence has [max(2, threshold)]
    elements. *)
Lemma sampleData_length data t out :
  t < len data ->
  sampleData getTime data t = Ok out ->
  len out = Z.max 2 t.
Proof.
  intros Hlt. unfold sampleData, sampleRun.
  destruct (len data <=? t) eqn:E; [apply Z.leb_le in E; lia |].
  intros H. unbind H. inversion H; subst; clear H.
  unbind Ha. inversion Ha; subst; clear Ha.
  apply forEach_pushes in Ha0; [| intros; eapply sampleStep_pushes; eassumption].
  destruct Ha0 as (mid & Hmid & Hlen).
  rewrite range_length in Hlen.
  unfold push. cbn [sampled]. rewrite Hmid. cbn [sampled push].
  unfold len. rewrite !length_app, Hlen. simpl. lia.
Qed.

End ChartShape.

(** A sampling run that returns has read its first element. *)

Section Endpoints.

Variable getTime : string -> float.

Lemma bucketStep_reads_previous data xKey yKey t i st st' :
  bucketStep getTime data xKey yKey t i st = Ok st' ->
  exists p, item data (prevSelectedIndex st) = Some p.
Proof.
  unfold bucketStep. intros H. unbind H.
  unfold fieldAt in Ha0.
  destruct (item data (prevSelectedIndex st)) as [p |]; [eauto | discriminate].
Qed.

(** A sampling run that returns has read [data[0]]: the input is not empty. *)
Lemma lttbRun_nonempty data t xKey yKey st :
  lttbRun getTime data t xKey yKey = Ok st ->
  exists first, item data 0 = Some first.
Proof.
  unfold lttbRun. intros H. unbind H. clear H.
  unfold range in Ha1.
  destruct (Z.to_nat (Z.max 3 t - 2 - 0)) as [| k] eqn:E; [lia |].
  simpl in Ha1. apply bind_Ok in Ha1. destruct Ha1 as (s1 & H1 & _).
  apply bucketStep_reads_previous in H1. exact H1.
Qed.

Lemma item_some_last {A : Type} (data : list A) (first : A) :
  item data 0 = Some first -> exists last, item data (len data - 1) = Some last.
Proof.
  destruct data as [| x rest]; [discriminate |]. intros _.
  destruct (exists_last (l := x :: rest)) as (front & last & ->); [discriminate |].
  exists last. apply item_last.
Qed.

End Endpoints.

(** ** Where the buckets stay inside the array

    When every computed bucket is a non-empty range of interior indices
    ([bucketsInside], a check on the length and the target size), the
    sampling path reads no element outside the array, so it returns once
    the keys resolve, and the indices it emits are strictly increasing. *)

Lemma range_cons (lo hi : Z) : lo < hi -> range lo hi = lo :: range (lo + 1) hi.
Proof.
  intros H. unfold range.
  replace (Z.to_nat (hi - lo)) with (S (Z.to_nat (hi - (lo + 1)))) by lia.
  cbn [seq map]. f_equal; [lia |].
  rewrite <- seq_shift, map_map. apply map_ext. intros k. lia.
Qed.

Lemma In_range (lo hi x : Z) : In x (range lo hi) <-> lo <= x < hi.
Proof.
  unfold range. rewrite in_map_iff. split.
  - intros (k & <- & Hk). apply in_seq in Hk. lia.
  - intros Hx. exists (Z.to_nat (x - lo)). split; [lia |].
    apply in_seq. lia.
Qed.

(** A counting loop whose body returns and carries [P i] to [P (i + 1)]
    returns, with [P] at the upper bound. *)
Lemma forEach_counting {S : Type} (P : Z -> S -> Prop)
  (body : Z -> S -> result S) (hi : Z) :
  forall (k : nat) (lo : Z),
    Z.to_nat (hi - lo) = k -> lo <= hi ->
    (forall i s, lo <= i < hi -> P i s -> exists s', body i s = Ok s' /\ P (i + 1) s') ->
    forall s, P lo s -> exists s', forEach body (range lo hi) s = Ok s' /\ P hi s'.
Proof.
  induction k as [| k IH]; intros lo Ek Hle Hstep s Hs.
  - assert (lo = hi) by lia. subst lo.
    unfold range. rewrite Z.sub_diag. simpl. eauto.
  - rewrite range_cons by lia. simpl.
    destruct (Hstep lo s) as (s1 & H1 & P1); [lia | assumption |].
    rewrite H1. simpl. apply IH; try lia; try assumption.
    intros i s0 Hi. apply Hstep. lia.
Qed.

(** A loop over a list whose body returns and keeps [P] returns, with [P]. *)
Lemma forEach_keeping {S : Type} (P : S -> Prop) (body : Z -> S -> result S)
  (js : list Z) :
  (forall j s, In j js -> P s -> exists s', body j s = Ok s' /\ P s') ->
  forall s, P s -> exists s', forEach body js s = Ok s' /\ P s'.
Proof.
  induction js as [| j rest IH]; simpl; intros Hstep s Hs; [eauto |].
  destruct (Hstep j s) as (s1 & H1 & P1); [auto | assumption |].
  rewrite H1. simpl. apply IH; [| assumption].
  intros j' s0 Hin. apply Hstep. auto.
Qed.

Lemma item_inside {A : Type} (data : list A) (j : Z) :
  0 <= j < len data -> exists x, item data j = Some x.
Proof.
  unfold item, len. intros Hj.
  destruct (j <? 0) eqn:E; [apply Z.ltb_lt in E; lia |].
  destruct (nth_error data (Z.to_nat j)) as [x |] eqn:En; [eauto |].
  apply nth_error_None in En. lia.
Qed.

Lemma fieldAt_inside (data : list DataPoint) (j : Z) (key : string) :
  0 <= j < len data -> exists v, fieldAt data j key = Ok v.
Proof.
  intros Hj. unfold fieldAt.
  destruct (item_inside data j Hj) as (p & ->). eauto.
Qed.

Lemma increasing_snoc (front : list Z) (a b : Z) :
  increasing (front ++ [a]) = true -> a < b ->
  increasing ((front ++ [a]) ++ [b]) = true.
Proof.
  induction front as [| x rest IH]; intros H Hab.
  - simpl. apply Z.ltb_lt in Hab. now rewrite Hab.
  - destruct rest as [| y rest'].
    + simpl in *. rewrite andb_true_r in H. rewrite H.
      apply Z.ltb_lt in Hab. now rewrite Hab.
    + change (increasing (x :: (y :: rest') ++ [a]) = true) in H.
      change (increasing (x :: ((y :: rest') ++ [a]) ++ [b]) = true).
      simpl in H. apply andb_prop in H. destruct H as (Hxy & Hrest).
      simpl. rewrite Hxy. simpl. apply IH; assumption.
Qed.

Lemma bucketsInside_spec (n t i : Z) :
  bucketsInside n t = true -> 0 <= i < t - 2 ->
  1 <= bucketStart n t i < bucketEnd n t i /\ bucketEnd n t i <= n - 1.
Proof.
  unfold bucketsInside. intros H Hi.
  rewrite forallb_forall in H. specialize (H i).
  rewrite In_range in H. specialize (H Hi).
  apply andb_prop in H. destruct H as (H & H3).
  apply andb_prop in H. destruct H as (H1 & H2).
  apply Z.leb_le in H1, H3. apply Z.ltb_lt in H2. lia.
Qed.

Section InOrder.

Variable getTime : string -> float.
Variable data : list DataPoint.
Variables xKey yKey : string.
Variable t : Z.
Hypothesis Ht : 3 <= t.
Hypothesis Hinside : bucketsInside (len data) t = true.

Lemma nextBucketAverage_returns i :
  0 <= i < t - 2 ->
  exists avg, nextBucketAverage getTime data xKey yKey t i = Ok avg.
Proof.
  intros Hi. unfold nextBucketAverage.
  destruct (bucketsInside_spec _ _ _ Hinside Hi) as (Hs & He).
  destruct (forEach_keeping (fun _ => True) (averageStep getTime data xKey yKey)
              (range (nextBucketStart (len data) t i) (nextBucketEnd (len data) t i)))
    with (s := (0%float, 0%float, 0)) as (acc & -> & _); [| exact I |].
  - intros j [[avgX avgY] k] Hj _. apply In_range in Hj.
    assert (Hin : 0 <= j < len data).
    { unfold nextBucketStart, nextBucketEnd in Hj. unfold bucketEnd in Hs. lia. }
    unfold averageStep.
    destruct (fieldAt_inside data j xKey Hin) as (xv & ->).
    destruct (fieldAt_inside data j yKey Hin) as (yv & ->).
    simpl. eauto.
  - simpl. destruct acc as [[avgX avgY] k]. destruct (0 <? k); eauto.
Qed.

Lemma selection_returns i prev avg :
  0 <= i < t - 2 ->
  exists best,
    forEach (selectStep getTime data xKey yKey prev avg)
      (range (bucketStart (len data) t i) (bucketEnd (len data) t i))
      ((-1)%float, bucketStart (len data) t i) = Ok best
    /\ bucketStart (len data) t i <= snd best < bucketEnd (len data) t i.
Proof.
  intros Hi.
  destruct (bucketsInside_spec _ _ _ Hinside Hi) as (Hs & He).
  apply forEach_keeping with
    (P := fun best => bucketStart (len data) t i <= snd best < bucketEnd (len data) t i);
    [| simpl; lia].
  intros j [maxArea maxAreaIndex] Hj Hbest. apply In_range in Hj.
  assert (Hin : 0 <= j < len data) by lia.
  unfold selectStep.
  destruct (fieldAt_inside data j xKey Hin) as (xv & ->).
  destruct (fieldAt_inside data j yKey Hin) as (yv & ->).
  simpl. destruct (_ <? _)%float; eauto.
Qed.

Lemma bucketStep_ordered i st :
  0 <= i < t - 2 -> ordered data t i st ->
  exists st', bucketStep getTime data xKey yKey t i st = Ok st' /\ ordered data t (i + 1) st'.
Proof.
  intros Hi (Hlast & Hhead & Hinc & Hall & Hlen & Hprev & Hbelow).
  destruct (bucketsInside_spec _ _ _ Hinside Hi) as (Hs & He).
  specialize (Hbelow ltac:(lia)).
  unfold bucketStep.
  destruct (nextBucketAverage_returns i Hi) as (avg & ->).
  destruct (fieldAt_inside data (prevSelectedIndex st) xKey ltac:(lia)) as (px & ->).
  destruct (fieldAt_inside data (prevSelectedIndex st) yKey ltac:(lia)) as (py & ->).
  cbn [bind].
  destruct (selection_returns i (xNum getTime px, yNum py) avg Hi) as (best & -> & Hbest).
  cbn [bind]. eexists. split; [reflexivity |].
  destruct Hlast as (front & Hfront).
  unfold ordered; cbn [picked prevSelectedIndex].
  repeat split.
  - eauto.
  - destruct Hhead as (rest & ->). eexists. reflexivity.
  - rewrite Hfront. apply increasing_snoc; [now rewrite <- Hfront | lia].
  - apply Forall_app. split; [assumption |]. constructor; [lia | constructor].
  - rewrite length_app, Hlen. simpl. lia.
  - lia.
  - lia.
  - intros _. change (bucketStart (len data) t (i + 1)) with (bucketEnd (len data) t i). lia.
Qed.

(** The bucket loop returns, in order. *)
Lemma bucket_loop_ordered :
  exists st,
    forEach (bucketStep getTime data xKey yKey t) (range 0 (t - 2))
      (push data 0 (mkLoop [] [] 0)) = Ok st
    /\ ordered data t (t - 2) st.
Proof.
  destruct (bucketsInside_spec _ _ 0 Hinside ltac:(lia)) as (Hs & He).
  apply (forEach_counting (ordered data t)) with (k := Z.to_nat (t - 2 - 0));
    [reflexivity | lia | |].
  - intros i st Hi. apply bucketStep_ordered. assumption.
  - unfold ordered, push; cbn [picked prevSelectedIndex app].
    repeat split; try lia.
    + exists []. reflexivity.
    + exists []. reflexivity.
    + constructor; [lia | constructor].
Qed.

End InOrder.

(** Above the threshold, when the buckets of the clamped target size stay
    inside the array and the keys resolve, [downsampleLTTB] returns, and the
    source indices of what it returns are [max(3, threshold)] indices inside
    the array in strictly increasing order, from 0 to [len - 1]. *)
Lemma downsampleLTTB_in_order
  (getTime : string -> float) (data : list DataPoint) (t : Z)
  (xKey yKey : option string) (xk yk : string) :
  t < len data ->
  bucketsInside (len data) (Z.max 3 t) = true ->
  resolveXKey data xKey = Ok xk ->
  resolveYKey data xk yKey = Ok yk ->
  exists js,
    downsampleIndices getTime data t xKey yKey = Ok js
    /\ downsampleLTTB getTime data t xKey yKey = Ok (map (item data) js)
    /\ increasing js = true
    /\ Forall (fun j => 0 <= j < len data) js
    /\ len js = Z.max 3 t
    /\ item js 0 = Some 0
    /\ item js (len js - 1) = Some (len data - 1).
Proof.
  intros Hlt Hinside Hx Hy.
  destruct (bucket_loop_ordered getTime data xk yk (Z.max 3 t) ltac:(lia) Hinside)
    as (st & Hloop & Hfront & Hhead & Hinc & Hall & Hlen & Hprev & _).
  assert (Hrun : lttbRun getTime data t xKey yKey = Ok (push data (len data - 1) st)).
  { unfold lttbRun. rewrite Hx. cbn [bind]. rewrite Hy. cbn [bind].
    rewrite Hloop. reflexivity. }
  assert (Hidx : downsampleIndices getTime data t xKey yKey
                 = Ok (picked st ++ [len data - 1])).
  { unfold downsampleIndices.
    destruct (len data <=? t) eqn:E; [apply Z.leb_le in E; lia |].
    rewrite Hrun. reflexivity. }
  exists (picked st ++ [len data - 1]).
  split; [exact Hidx |].
  split; [apply downsampleIndices_sound; exact Hidx |].
  destruct Hfront as (front & Hfront).
  repeat split.
  - rewrite Hfront. apply increasing_snoc; [now rewrite <- Hfront | lia].
  - apply Forall_app. split; [assumption |]. constructor; [lia | constructor].
  - unfold len. rewrite length_app, Hlen. simpl. lia.
  - destruct Hhead as (rest & ->). reflexivity.
  - apply item_last.
Qed.

(** The accumulator of the averaging loop counts the indices it visits. *)
Lemma averaging_counts getTime data xKey yKey js :
  forall sx sy k sx' sy' k',
    forEach (averageStep getTime data xKey yKey) js (sx, sy, k) = Ok (sx', sy', k') ->
    k' = k + Z.of_nat (List.length js).
Proof.
  induction js as [| j rest IH]; simpl; intros sx sy k sx' sy' k' H.
  - inversion H; subst. lia.
  - apply bind_Ok in H. destruct H as ([[sx1 sy1] k1] & H1 & H2).
    unfold averageStep in H1. unbind H1. inversion H1; subst.
    apply IH in H2. lia.
Qed.

(** Where the range averaged for bucket [i] is not empty, the average point
    is a sum divided by a positive count: the guard of line 117 holds and
    the fallback to (0, 0) is not taken. *)
Lemma nextBucketAverage_divides getTime data xKey yKey t i avg :
  nextBucketStart (len data) t i < nextBucketEnd (len data) t i ->
  nextBucketAverage getTime data xKey yKey t i = Ok avg ->
  exists sx sy k,
    0 < k
    /\ k = nextBucketEnd (len data) t i - nextBucketStart (len data) t i
    /\ avg = ((sx / ofZ k)%float, (sy / ofZ k)%float).
Proof.
  intros Hne. unfold nextBucketAverage. intros H.
  apply bind_Ok in H. destruct H as ([[sx sy] k] & Hloop & H).
  apply averaging_counts in Hloop. rewrite range_length in Hloop.
  assert (Hk : k = nextBucketEnd (len data) t i - nextBucketStart (len data) t i) by lia.
  assert (Hpos : 0 < k) by lia.
  apply Z.ltb_lt in Hpos as E. rewrite E in H. inversion H; subst avg.
  exists sx, sy, k. auto.
Qed.

(** Ten points sampled to five, and seventeen sampled to thirteen. *)
Example wave_in_order :
  (exists js,
     downsampleIndices Samples.clock (Samples.wave 10) 5 None None = Ok js
     /\ increasing js = true /\ len js = 5)
  /\ (exists js,
        downsampleIndices Samples.clock (Samples.wave 17) 13 None None = Ok js
        /\ increasing js = true /\ len js = 13).
Proof.
  split.
  - destruct (downsampleLTTB_in_order Samples.clock (Samples.wave 10) 5 None None
                "time" "value") as (js & Hjs & _ & Hinc & _ & Hlen & _);
      try (vm_compute; reflexivity).
    exists js. auto.
  - destruct (downsampleLTTB_in_order Samples.clock (Samples.wave 17) 13 None None
                "time" "value") as (js & Hjs & _ & Hinc & _ & Hlen & _);
      try (vm_compute; reflexivity).
    exists js. auto.
Qed.

(** ** Key resolution *)

Lemma forEach_Err {S : Type} (P : error -> Prop) (body : Z -> S -> result S) :
  (forall j s e, body j s = Err e -> P e) ->
  forall js s e, forEach body js s = Err e -> P e.
Proof.
  intros Hstep js. induction js as [| j rest IH]; simpl; intros s e H.
  - discriminate.
  - apply bind_Err in H. destruct H as [H | (s1 & _ & H)]; eauto.
Qed.

Lemma fieldAt_Err data j key e : fieldAt data j key = Err e -> e = TypeError.
Proof.
  unfold fieldAt. destruct (item data j); [discriminate | congruence].
Qed.

Section Resolution.

Variable getTime : string -> float.

Lemma averageStep_Err data xKey yKey j acc e :
  averageStep getTime data xKey yKey j acc = Err e -> e = TypeError.
Proof.
  unfold averageStep. destruct acc as [[avgX avgY] n].
  intros H. unbind_err H; try discriminate; eauto using fieldAt_Err.
Qed.

Lemma selectStep_Err data xKey yKey prev avg j best e :
  selectStep getTime data xKey yKey prev avg j best = Err e -> e = TypeError.
Proof.
  unfold selectStep. destruct best as [maxArea maxAreaIndex].
  intros H. unbind_err H; eauto using fieldAt_Err.
  destruct (_ <? _)%float in H; discriminate.
Qed.

(** The bucket loop raises nothing but the runtime's [TypeError]. *)
Lemma bucketStep_Err data xKey yKey t i st e :
  bucketStep getTime data xKey yKey t i st = Err e -> e = TypeError.
Proof.
  unfold bucketStep, nextBucketAverage. intros H.
  unbind_err H; eauto using fieldAt_Err.
  - discriminate.
  - eapply (forEach_Err (fun e => e = TypeError)); [| eassumption].
    intros; eapply selectStep_Err; eassumption.
  - unbind_err Ha.
    + destruct a as [[avgX avgY] n]. destruct (0 <? n); discriminate.
    + eapply (forEach_Err (fun e => e = TypeError)); [| eassumption].
      intros; eapply averageStep_Err; eassumption.
Qed.

Lemma resolveXKey_Err data xKey e : resolveXKey data xKey = Err e -> e = TypeError.
Proof.
  unfold resolveXKey. destruct (supplied xKey); [discriminate |].
  destruct (item data 0); [discriminate | congruence].
Qed.

(** The sampling path fails with [ResolutionError] exactly when the y key
    does not resolve against the resolved x key. *)
Lemma lttbRun_ResolutionError data t xKey yKey :
  lttbRun getTime data t xKey yKey = Err ResolutionError <->
  exists k, resolveXKey data xKey = Ok k /\ resolveYKey data k yKey = Err ResolutionError.
Proof.
  unfold lttbRun. split.
  - intros H. unbind_err H.
    + discriminate.
    + apply (forEach_Err (fun e => e = TypeError)) in Ha1; [discriminate |].
      intros; eapply bucketStep_Err; eassumption.
    + eauto.
    + apply resolveXKey_Err in Ha. discriminate.
  - intros (k & -> & Hy). simpl. now rewrite Hy.
Qed.

(** What the scan for a y key finds is the first key, in enumeration order,
    that differs from the x key and holds a number. *)
Lemma firstNumericKey_first p0 xKey key :
  firstNumericKey p0 xKey = Some key ->
  exists before after,
    keysOf p0 = before ++ key :: after
    /\ key <> xKey
    /\ isNumber (getField p0 key) = true
    /\ forall k, In k before -> k = xKey \/ isNumber (getField p0 k) = false.
Proof.
  unfold firstNumericKey.
  generalize (keysOf p0) as keys.
  induction keys as [| k rest IH]; simpl; [discriminate |].
  destruct (negb (k =? xKey)%string && isNumber (getField p0 k)) eqn:E.
  - intros H. inversion H; subst. exists [], rest.
    apply andb_prop in E. destruct E as (E1 & E2).
    apply negb_true_iff, String.eqb_neq in E1.
    repeat split; try assumption. intros k' [].
  - intros H. destruct (IH H) as (before & after & -> & Hne & Hnum & Hbefore).
    exists (k :: before), after. repeat split; try assumption.
    intros k' [<- | Hin]; [| auto].
    apply andb_false_iff in E. destruct E as [E | E]; [left | right; exact E].
    apply negb_false_iff in E. now apply String.eqb_eq.
Qed.

Lemma firstNumericKey_none p0 xKey :
  firstNumericKey p0 xKey = None <->
  forall k, In k (keysOf p0) -> k = xKey \/ isNumber (getField p0 k) = false.
Proof.
  unfold firstNumericKey. split.
  - intros H k Hin. pose proof (find_none _ _ H k Hin) as E. simpl in E.
    apply andb_false_iff in E. destruct E as [E | E]; [left | right; exact E].
    apply negb_false_iff in E. now apply String.eqb_eq.
  - intros H. destruct (find _ (keysOf p0)) as [k |] eqn:E; [| reflexivity].
    apply find_some in E. destruct E as (Hin & E).
    apply andb_prop in E. destruct E as (E1 & E2).
    apply negb_true_iff, String.eqb_neq in E1.
    destruct (H k Hin); congruence.
Qed.

(** Without an explicit y key the resolver takes the scan's key when its
    name is not empty, and raises [ResolutionError] when the scan finds
    nothing or finds a field whose name is the empty string. *)
Lemma resolveYKey_inferred data p0 xKey yKey :
  supplied yKey = None ->
  item data 0 = Some p0 ->
  resolveYKey data xKey yKey =
    match firstNumericKey p0 xKey with
    | Some key => if (key =? "")%string then Err ResolutionError else Ok key
    | None => Err ResolutionError
    end.
Proof.
  intros Hy H0. unfold resolveYKey. rewrite Hy, H0.
  destruct (firstNumericKey p0 xKey) as [key |]; simpl; [| reflexivity].
  destruct (key =? "")%string; reflexivity.
Qed.

(** A first numeric field named by the empty string makes the sampling
    path raise, as a record without any numeric field does. *)
Lemma downsampleLTTB_blank_key_raises data t xKey p0 xk :
  t < len data ->
  item data 0 = Some p0 ->
  resolveXKey data xKey = Ok xk ->
  firstNumericKey p0 xk = Some "" ->
  downsampleLTTB getTime data t xKey None = Err ResolutionError.
Proof.
  intros Hlt H0 Hx Hscan. unfold downsampleLTTB.
  destruct (len data <=? t) eqn:E; [apply Z.leb_le in E; lia |].
  assert (H : lttbRun getTime data t xKey None = Err ResolutionError).
  { apply lttbRun_ResolutionError. exists xk. split; [assumption |].
    rewrite (resolveYKey_inferred data p0 xk None eq_refl H0), Hscan. reflexivity. }
  now rewrite H.
Qed.

End Resolution.

(** ** The exact bucket formula is a partition *)

Section ExactBuckets.

Variables n t : Z.
Hypothesis Ht : 3 <= t.
Hypothesis Hn : t < n.

Lemma exact_boundary_first : Exact.boundary n t 0 = 0.
Proof. reflexivity. Qed.

Lemma exact_boundary_last : Exact.boundary n t (t - 2) = n - 2.
Proof. unfold Exact.boundary. rewrite Z.mul_comm. apply Z.div_mul. lia. Qed.

(** Consecutive boundaries are [floor w] or [floor w + 1] apart. *)
Lemma exact_boundary_step i :
  (n - 2) / (t - 2) <= Exact.boundary n t (i + 1) - Exact.boundary n t i
    <= (n - 2) / (t - 2) + 1.
Proof.
  unfold Exact.boundary.
  replace ((i + 1) * (n - 2)) with (i * (n - 2) + (n - 2)) by ring.
  set (a := i * (n - 2)). set (m := n - 2). set (k := t - 2).
  assert (Hk : 0 < k) by (subst k; lia).
  pose proof (Z.div_mod a k ltac:(lia)) as Ea.
  pose proof (Z.mod_pos_bound a k Hk) as Ba.
  pose proof (Z.div_mod m k ltac:(lia)) as Em.
  pose proof (Z.mod_pos_bound m k Hk) as Bm.
  pose proof (Z.div_mod (a + m) k ltac:(lia)) as Es.
  pose proof (Z.mod_pos_bound (a + m) k Hk) as Bs.
  nia.
Qed.

Lemma exact_width_at_least_one : 1 <= (n - 2) / (t - 2).
Proof. apply Z.div_le_lower_bound; lia. Qed.

Lemma exact_contiguous i :
  Exact.bucketEnd n t i = Exact.bucketStart n t (i + 1).
Proof. reflexivity. Qed.

Lemma exact_nonempty i : Exact.bucketStart n t i < Exact.bucketEnd n t i.
Proof.
  unfold Exact.bucketStart, Exact.bucketEnd.
  pose proof (exact_boundary_step i). pose proof exact_width_at_least_one. lia.
Qed.

Lemma exact_first_start : Exact.bucketStart n t 0 = 1.
Proof. reflexivity. Qed.

Lemma exact_last_end : Exact.bucketEnd n t (t - 3) = n - 1.
Proof.
  unfold Exact.bucketEnd. replace (t - 3 + 1) with (t - 2) by ring.
  rewrite exact_boundary_last. ring.
Qed.

Lemma exact_boundary_monotone i j :
  i <= j -> Exact.boundary n t i <= Exact.boundary n t j.
Proof.
  intros Hij. unfold Exact.boundary.
  apply Z.div_le_mono; [lia | nia].
Qed.

(** Earlier buckets end before later ones start. *)
Lemma exact_disjoint i j :
  i < j -> Exact.bucketEnd n t i <= Exact.bucketStart n t j.
Proof.
  intros Hij. unfold Exact.bucketEnd, Exact.bucketStart.
  pose proof (exact_boundary_monotone (i + 1) j). lia.
Qed.

(** Every interior index lies in some bucket. *)
Lemma exact_cover x :
  1 <= x <= n - 2 ->
  exists i, 0 <= i < t - 2
            /\ Exact.bucketStart n t i <= x < Exact.bucketEnd n t i.
Proof.
  intros Hx. exists ((x * (t - 2) - 1) / (n - 2)).
  set (m := n - 2). set (k := t - 2).
  assert (Hm : 0 < m) by (subst m; lia).
  assert (Hk : 0 < k) by (subst k; lia).
  set (i := (x * k - 1) / m).
  pose proof (Z.div_mod (x * k - 1) m ltac:(lia)) as E.
  pose proof (Z.mod_pos_bound (x * k - 1) m Hm) as B.
  fold i in E.
  assert (Hi0 : 0 <= i) by (apply Z.div_pos; nia).
  assert (Hik : i < k) by (apply Z.div_lt_upper_bound; nia).
  unfold Exact.bucketStart, Exact.bucketEnd, Exact.boundary. fold m k.
  repeat split; try assumption.
  - assert (i * m / k < x) by (apply Z.div_lt_upper_bound; nia). lia.
  - assert (x <= (i + 1) * m / k) by (apply Z.div_le_lower_bound; nia). lia.
Qed.

(** ... and in one bucket only. *)
Lemma exact_cover_unique x i j :
  Exact.bucketStart n t i <= x < Exact.bucketEnd n t i ->
  Exact.bucketStart n t j <= x < Exact.bucketEnd n t j ->
  i = j.
Proof.
  intros Hi Hj.
  destruct (Z.lt_trichotomy i j) as [H | [H | H]]; [| assumption |].
  - pose proof (exact_disjoint i j H). lia.
  - pose proof (exact_disjoint j i H). lia.
Qed.

(** Any two buckets differ in size by at most one. *)
Lemma exact_balanced i j :
  Z.abs ((Exact.bucketEnd n t i - Exact.bucketStart n t i)
         - (Exact.bucketEnd n t j - Exact.bucketStart n t j)) <= 1.
Proof.
  unfold Exact.bucketStart, Exact.bucketEnd.
  pose proof (exact_boundary_step i). pose proof (exact_boundary_step j). lia.
Qed.

(** The range averaged for bucket [i] is not empty, and for the last bucket
    it is the last index alone. *)
Lemma exact_next_nonempty i :
  0 <= i < t - 2 -> Exact.nextBucketStart n t i < Exact.nextBucketEnd n t i.
Proof.
  intros Hi. unfold Exact.nextBucketStart, Exact.nextBucketEnd.
  pose proof (exact_boundary_step (i + 1)) as Hs.
  replace (i + 1 + 1) with (i + 2) in Hs by ring.
  pose proof exact_width_at_least_one.
  pose proof (exact_boundary_monotone (i + 1) (t - 2) ltac:(lia)).
  rewrite exact_boundary_last in *. lia.
Qed.

Lemma exact_next_last :
  Exact.nextBucketStart n t (t - 3) = n - 1 /\ Exact.nextBucketEnd n t (t - 3) = n.
Proof.
  unfold Exact.nextBucketStart, Exact.nextBucketEnd.
  pose proof (exact_boundary_step (t - 2)) as Hs.
  replace (t - 3 + 1) with (t - 2) by ring.
  replace (t - 3 + 2) with (t - 2 + 1) by ring.
  pose proof exact_width_at_least_one.
  rewrite exact_boundary_last in *. lia.
Qed.

End ExactBuckets.

(** Where the binary64 boundaries agree with the exact ones, the buckets
    stay inside the array. *)
Lemma roundsExactly_inside (n t : Z) :
  3 <= t -> t < n -> roundsExactly n t = true -> bucketsInside n t = true.
Proof.
  intros Ht Hn H. unfold roundsExactly in H. rewrite forallb_forall in H.
  assert (Hb : forall i, 0 <= i < t + 1 ->
                 floorZ (ofZ i * bucketSize n t)%float = Exact.boundary n t i).
  { intros i Hi. apply Z.eqb_eq, H, In_range. exact Hi. }
  unfold bucketsInside. apply forallb_forall. intros i Hi. apply In_range in Hi.
  unfold bucketStart, bucketEnd. rewrite !Hb by lia.
  pose proof (exact_boundary_monotone n t Ht Hn 0 i ltac:(lia)) as H0.
  pose proof (exact_boundary_monotone n t Ht Hn (i + 1) (t - 2) ltac:(lia)) as H1.
  pose proof (exact_nonempty n t Ht Hn i) as H2.
  unfold Exact.bucketStart, Exact.bucketEnd in H2.
  rewrite exact_boundary_last in H1 by assumption.
  change (Exact.boundary n t 0) with 0 in H0.
  apply andb_true_intro. split; [apply andb_true_intro; split |].
  - apply Z.leb_le. lia.
  - apply Z.ltb_lt. lia.
  - apply Z.leb_le. lia.
Qed.

(** The sizes the chart and the design document name keep their buckets
    inside; 17 at 13 and 505 at 500 do too, although their last boundary is
    rounded one short (C6). *)
Example chart_sizes_stay_inside :
  bucketsInside 2000 500 = true
  /\ bucketsInside 10000 500 = true
  /\ bucketsInside 501 300 = true
  /\ bucketsInside 17 13 = true
  /\ bucketsInside 505 500 = true.
Proof. repeat split; vm_compute; reflexivity. Qed.

(** ** The claims *)

(** C1. Two points and a threshold of 1: the input is longer than the
    threshold, so the sampling path runs with the threshold clamped to 3; the
    single bucket is empty and the call returns three elements, the last
    point twice, where [min(len(data), max(3, threshold))] is 2.  One point
    and a threshold of 0 gives three elements as well, the middle one
    [undefined]. *)
Theorem downsampleLTTB_short_input_grows :
  downsampleLTTB Samples.clock Samples.twoPoints 1 None None
    = Ok [Some (Samples.point 0 1); Some (Samples.point 1 5); Some (Samples.point 1 5)]
  /\ Z.min (len Samples.twoPoints) (Z.max 3 1) = 2
  /\ downsampleLTTB Samples.clock Samples.onePoint 0 None None
     = Ok [Some (Samples.point 0 1); None; Some (Samples.point 0 1)]
  /\ Z.min (len Samples.onePoint) (Z.max 3 0) = 1.
Proof. repeat split; vm_compute; reflexivity. Qed.

(** C2 as stated fails: four records [{a, b}] with neither [time] nor
    [timestamp], no keys supplied, threshold 3.  The call does not raise
    [ResolutionError]; it takes [timestamp] as the x key, reads it as
    [undefined] everywhere, and returns three of the records. *)
Lemma downsampleLTTB_without_x_field :
  3 < len Samples.fourUnkeyed
  /\ hasField "time" (Samples.unkeyed 0 1) = false
  /\ hasField "timestamp" (Samples.unkeyed 0 1) = false
  /\ downsampleLTTB Samples.clock Samples.fourUnkeyed 3 None None
     = Ok [Some (Samples.unkeyed 0 1); Some (Samples.unkeyed 1 4); Some (Samples.unkeyed 3 3)].
Proof. repeat split; vm_compute; reflexivity. Qed.

(** C2, amended. On the sampling path of a non-empty input, when no x key
    is supplied and [data[0]] has no field [time], the x key is
    [timestamp], whether or not [data[0]] has such a field, and the call
    raises [ResolutionError] exactly when the y key does not resolve. *)
Theorem downsampleLTTB_x_key_falls_back
  (getTime : string -> float) (data : list DataPoint) (t : Z)
  (xKey yKey : option string) (p0 : DataPoint) :
  t < len data ->
  supplied xKey = None ->
  item data 0 = Some p0 ->
  hasField "time" p0 = false ->
  resolveXKey data xKey = Ok "timestamp"
  /\ (downsampleLTTB getTime data t xKey yKey = Err ResolutionError
      <-> resolveYKey data "timestamp" yKey = Err ResolutionError).
Proof.
  intros Hlt Hx H0 Htime.
  assert (HxKey : resolveXKey data xKey = Ok "timestamp").
  { unfold resolveXKey. now rewrite Hx, H0, Htime. }
  split; [exact HxKey |].
  unfold downsampleLTTB.
  destruct (len data <=? t) eqn:E; [apply Z.leb_le in E; lia |].
  split.
  - intros H.
    destruct (lttbRun getTime data t xKey yKey) as [st | e] eqn:Hrun;
      [discriminate |].
    injection H as ->.
    apply lttbRun_ResolutionError in Hrun. destruct Hrun as (k & Hk & Hy).
    congruence.
  - intros Hy.
    assert (H : lttbRun getTime data t xKey yKey = Err ResolutionError).
    { apply lttbRun_ResolutionError. eauto. }
    now rewrite H.
Qed.

Lemma downsampleLTTB_x_key_falls_back_witness :
  3 < len Samples.fourUnkeyed
  /\ hasField "time" (Samples.unkeyed 0 1) = false
  /\ resolveXKey Samples.fourUnkeyed None = Ok "timestamp"
  /\ (downsampleLTTB Samples.clock Samples.fourUnkeyed 3 None None = Err ResolutionError
      <-> resolveYKey Samples.fourUnkeyed "timestamp" None = Err ResolutionError).
Proof.
  split; [vm_compute; reflexivity |].
  split; [vm_compute; reflexivity |].
  apply (downsampleLTTB_x_key_falls_back Samples.clock Samples.fourUnkeyed 3
           None None (Samples.unkeyed 0 1));
    vm_compute; reflexivity.
Defined.

(** C3 as stated fails.  With [{threshold: 5, targetPoints: 10}] and six
    points the policy calls [downsampleLTTB(data, 10)], whose own passthrough
    returns the six points, not ten; with [{threshold: 5, targetPoints: 2}]
    the clamp to 3 returns three points, not two. *)
Lemma adaptiveSample_target_out_of_range :
  len (Samples.wave 6) = 5 + 1
  /\ adaptiveSample Samples.clock (Samples.wave 6) (mkPartial (Some 5) (Some 10)) None None
     = Ok (map Some (Samples.wave 6))
  /\ len (map Some (Samples.wave 6)) = 6
  /\ adaptiveSample Samples.clock (Samples.wave 6) (mkPartial (Some 5) (Some 2)) None None
     = Ok (map (item (Samples.wave 6)) [0; 2; 5])
  /\ len (map (item (Samples.wave 6)) [0; 2; 5]) = 3.
Proof. repeat split; vm_compute; reflexivity. Qed.

(** C3, amended. With the configuration merged over the defaults
    (threshold 500, targetPoints 300): an input of exactly [threshold]
    elements is returned unchanged; an input of [threshold + 1] elements,
    when [3 <= targetPoints <= threshold], is reduced to exactly
    [targetPoints] elements whenever the call returns. *)
Theorem adaptiveSample_boundary
  (getTime : string -> float) (data : list DataPoint) (config : PartialConfig)
  (xKey yKey : option string) :
  (len data = threshold (spread DEFAULT_SAMPLING_CONFIG config) ->
   adaptiveSample getTime data config xKey yKey = Ok (map Some data))
  /\ (len data = threshold (spread DEFAULT_SAMPLING_CONFIG config) + 1 ->
      3 <= targetPoints (spread DEFAULT_SAMPLING_CONFIG config)
        <= threshold (spread DEFAULT_SAMPLING_CONFIG config) ->
      forall out,
        adaptiveSample getTime data config xKey yKey = Ok out ->
        len out = targetPoints (spread DEFAULT_SAMPLING_CONFIG config))
  /\ spread DEFAULT_SAMPLING_CONFIG (mkPartial None None) = mkConfig 500 300.
Proof.
  unfold adaptiveSample. repeat split.
  - intros ->. now rewrite Z.leb_refl.
  - intros Hlen Htarget out.
    destruct (len data <=? threshold (spread DEFAULT_SAMPLING_CONFIG config)) eqn:E;
      [apply Z.leb_le in E; lia |].
    intros H. apply downsampleLTTB_length in H; lia.
Qed.

(** Five points under [{threshold: 5, targetPoints: 4}] come back unchanged;
    six points are reduced to four. *)
Lemma adaptiveSample_boundary_witness :
  adaptiveSample Samples.clock (Samples.wave 5) (mkPartial (Some 5) (Some 4)) None None
    = Ok (map Some (Samples.wave 5))
  /\ adaptiveSample Samples.clock (Samples.wave 6) (mkPartial (Some 5) (Some 4)) None None
     = Ok (map (item (Samples.wave 6)) [0; 2; 3; 5])
  /\ len (map (item (Samples.wave 6)) [0; 2; 3; 5]) = 4.
Proof.
  split.
  - apply (adaptiveSample_boundary Samples.clock (Samples.wave 5)
             (mkPartial (Some 5) (Some 4)) None None).
    vm_compute; reflexivity.
  - split; [vm_compute; reflexivity |].
    apply (adaptiveSample_boundary Samples.clock (Samples.wave 6)
             (mkPartial (Some 5) (Some 4)) None None).
    + vm_compute; reflexivity.
    + simpl; lia.
    + vm_compute; reflexivity.
Defined.

(** C4. Whenever [downsampleLTTB] samples (the input is longer than the
    threshold and the call returns a sequence, so the keys resolved), the
    input has a first and a last element, the first element of the output
    is the first element of the input, and the last element of the output
    is the last element of the input. *)
Theorem downsampleLTTB_keeps_endpoints
  (getTime : string -> float) (data : list DataPoint) (t : Z)
  (xKey yKey : option string) (out : list (option DataPoint)) :
  t < len data ->
  downsampleLTTB getTime data t xKey yKey = Ok out ->
  exists first last,
    item data 0 = Some first
    /\ item data (len data - 1) = Some last
    /\ item out 0 = Some (Some first)
    /\ item out (len out - 1) = Some (Some last).
Proof.
  intros Hlt H.
  destruct (downsampleLTTB_shape _ _ _ _ _ _ Hlt H) as (mid & Hout & _).
  assert (Hfirst : exists first, item data 0 = Some first).
  { unfold downsampleLTTB in H.
    destruct (len data <=? t) eqn:E; [apply Z.leb_le in E; lia |].
    unbind H. eapply lttbRun_nonempty; eassumption. }
  destruct Hfirst as (first & Hfirst).
  destruct (item_some_last _ _ Hfirst) as (last & Hlast).
  exists first, last. repeat split; try assumption.
  - subst out. rewrite Hfirst. reflexivity.
  - subst out. rewrite Hlast.
    change (item data 0 :: mid ++ [Some last])
      with ((item data 0 :: mid) ++ [Some last]).
    apply item_last.
Qed.

(** Ten points sampled down to five: the call returns the elements at
    indices 0, 2, 5, 7, 9, and its first and last elements are the
    input's. *)
Lemma downsampleLTTB_keeps_endpoints_witness :
  5 < len (Samples.wave 10)
  /\ downsampleLTTB Samples.clock (Samples.wave 10) 5 None None
     = Ok (map (item (Samples.wave 10)) [0; 2; 5; 7; 9])
  /\ exists first last,
       item (Samples.wave 10) 0 = Some first
       /\ item (Samples.wave 10) (len (Samples.wave 10) - 1) = Some last
       /\ item (map (item (Samples.wave 10)) [0; 2; 5; 7; 9]) 0 = Some (Some first)
       /\ item (map (item (Samples.wave 10)) [0; 2; 5; 7; 9])
            (len (map (item (Samples.wave 10)) [0; 2; 5; 7; 9]) - 1)
          = Some (Some last).
Proof.
  split; [vm_compute; reflexivity |].
  split; [vm_compute; reflexivity |].
  apply (downsampleLTTB_keeps_endpoints Samples.clock (Samples.wave 10) 5 None None);
    vm_compute; reflexivity.
Defined.

(** C5. On the same inputs the emitted source indices are 0, 1, 1 and
    0, 1, 0: not strictly increasing, and in the second case index 1 is
    outside the input. *)
Theorem downsampleLTTB_short_input_indices :
  downsampleIndices Samples.clock Samples.twoPoints 1 None None = Ok [0; 1; 1]
  /\ increasing [0; 1; 1] = false
  /\ downsampleIndices Samples.clock Samples.onePoint 0 None None = Ok [0; 1; 0]
  /\ increasing [0; 1; 0] = false.
Proof. repeat split; vm_compute; reflexivity. Qed.

(** Where the two computations agree, and where they do not: 2000 readings
    at the chart's 500 points are bucketed exactly, 17 at 13 and 505 at 500
    are not. *)
Example rounding_of_boundaries :
  roundsExactly 10 5 = true
  /\ roundsExactly 2000 500 = true
  /\ roundsExactly 17 13 = false
  /\ roundsExactly 505 500 = false.
Proof. repeat split; vm_compute; reflexivity. Qed.

(** C6. Seventeen elements sampled to thirteen: the width 15/11 rounds down
    to a binary64 number whose product with 11 is the binary64 number just
    below 15, so the last bucket ends at index 15 instead of 16 and interior
    index 15 lies in none of the eleven buckets, where the exact formula
    puts it in the last one.  A peak at that index is not among the indices
    emitted.  The same happens to index 503 of 505 readings at the chart's
    500 points. *)
Theorem bucketEnd_rounds_below :
  (ofZ 11 * bucketSize 17 13 <? 15)%float = true
  /\ next_up (ofZ 11 * bucketSize 17 13)%float = 15%float
  /\ bucketStart 17 13 10 = 14
  /\ bucketEnd 17 13 10 = 15
  /\ Exact.bucketEnd 17 13 10 = 16
  /\ existsb (fun i => inBucket 17 13 i 15) (range 0 (13 - 2)) = false
  /\ downsampleIndices Samples.clock (Samples.peak 17 15) 13 None None
     = Ok [0; 1; 2; 3; 5; 6; 7; 9; 10; 11; 13; 14; 16]
  /\ bucketEnd 505 500 497 = 503
  /\ Exact.bucketEnd 505 500 497 = 504
  /\ existsb (fun i => inBucket 505 500 i 503) (range 0 (500 - 2)) = false.
Proof. repeat split; vm_compute; reflexivity. Qed.

(** On well-formed input above a threshold of at least 3 the two samplers
    pick the same readings. *)
Example samplers_agree_on_dated_readings :
  sampleIndices Samples.clock Samples.fourDated 3 = Ok [0; 2; 3]
  /\ downsampleIndices Samples.clock (map asDataPoint Samples.fourDated) 3
       (Some "timestamp") (Some "voltage") = Ok [0; 2; 3].
Proof. split; vm_compute; reflexivity. Qed.

(** C7. Any three readings and a threshold of 2: [sampleData] has no clamp,
    runs its loop zero times and returns the first and the last reading;
    [downsampleLTTB] clamps the threshold to 3 and returns all three.  With
    a threshold of 3 and four readings whose timestamps are no dates every
    area is NaN: [sampleData], whose [maxAreaPoint] starts at 0, emits
    [data[0]] for the bucket, and [downsampleLTTB], whose [maxAreaIndex]
    starts at the bucket's first index, emits [data[1]]. *)
Theorem sampleData_departs_from_downsampleLTTB
  (getTime : string -> float) (r0 r1 r2 : BatteryReading) :
  sampleData getTime [r0; r1; r2] 2 = Ok [Some r0; Some r2]
  /\ downsampleLTTB getTime (map asDataPoint [r0; r1; r2]) 2
       (Some "timestamp") (Some "voltage")
     = Ok [Some (asDataPoint r0); Some (asDataPoint r1); Some (asDataPoint r2)]
  /\ sampleData Samples.clock Samples.fourUndated 3
     = Ok (map (item Samples.fourUndated) [0; 0; 3])
  /\ downsampleLTTB Samples.clock (map asDataPoint Samples.fourUndated) 3
       (Some "timestamp") (Some "voltage")
     = Ok (map (item (map asDataPoint Samples.fourUndated)) [0; 1; 3]).
Proof.
  split; [vm_compute; reflexivity |].
  split; [| split; vm_compute; reflexivity].
  vm_compute.
  match goal with
  | |- context [PrimFloat.ltb ?a ?b] => destruct (PrimFloat.ltb a b)
  end; reflexivity.
Qed.

(** Scenario D and E of the design document: [{time, value}] resolves to
    [time] and [value]; of two numeric fields besides the x field the one
    enumerated first is taken. *)
Example resolve_time_value :
  resolveXKey Samples.twoPoints None = Ok "time"
  /\ resolveYKey Samples.twoPoints "time" None = Ok "value"
  /\ firstNumericKey
       [("time", VNumber 0); ("temperature", VNumber 25); ("voltage", VNumber 12)]
       "time" = Some "temperature".
Proof. repeat split. Qed.

(** C8. Records [{timestamp, "": 7, value: 1}], no keys supplied: the first
    field that is not the x key and holds a number is the one named by the
    empty string.  The scan stores that name, the test [!yKey] that follows
    takes the empty name for a missing one, and the call raises
    [ResolutionError] although such a field exists; with the y key given it
    samples the same records. *)
Theorem downsampleLTTB_blank_field_name :
  resolveXKey Samples.fourBlank None = Ok "timestamp"
  /\ firstNumericKey (Samples.blankColumn "2024-01-01T00:00:00Z" 7 1) "timestamp" = Some ""
  /\ downsampleLTTB Samples.clock Samples.fourBlank 3 None None = Err ResolutionError
  /\ downsampleLTTB Samples.clock Samples.fourBlank 3 None (Some "value")
     = Ok (map (item Samples.fourBlank) [0; 1; 3]).
Proof. repeat split; vm_compute; reflexivity. Qed.

(** C9. On the same input the range averaged for the last bucket is
    [[15, 17)]: two indices, where the exact formula gives [[16, 17)], the
    last index alone. *)
Theorem nextBucket_rounds_below :
  nextBucketStart 17 13 10 = 15
  /\ nextBucketEnd 17 13 10 = 17
  /\ range (nextBucketStart 17 13 10) (nextBucketEnd 17 13 10) = [15; 16]
  /\ Exact.nextBucketStart 17 13 10 = 16
  /\ Exact.nextBucketEnd 17 13 10 = 17.
Proof. repeat split; vm_compute; reflexivity. Qed.

(** C10. [shouldShowDots] answers true exactly for lengths up to 100; in
    particular it is true at 100 and false at 101. *)
Theorem shouldShowDots_iff_at_most_100 (dataLength : Z) :
  (shouldShowDots dataLength = true <-> dataLength <= 100)
  /\ shouldShowDots 100 = true
  /\ shouldShowDots 101 = false.
Proof.
  unfold shouldShowDots. repeat split; try reflexivity.
  - apply Z.leb_le.
  - apply Z.leb_le.
Qed.

(** ** Lemmas for the further properties

    *** Numbers: NaN and the order of [<] *)

Lemma float_is_nan (x : float) : Prim2SF x = S754_nan -> x = nan.
Proof. intros H. rewrite <- (SF2Prim_Prim2SF x), H. reflexivity. Qed.

Lemma sub_nan_l (x : float) : (nan - x)%float = nan.
Proof. apply float_is_nan. rewrite sub_spec. reflexivity. Qed.

Lemma sub_nan_r (x : float) : (x - nan)%float = nan.
Proof.
  apply float_is_nan. rewrite sub_spec.
  change (Prim2SF nan) with S754_nan. now destruct (Prim2SF x).
Qed.

Lemma mul_nan_l (x : float) : (nan * x)%float = nan.
Proof. apply float_is_nan. rewrite mul_spec. reflexivity. Qed.

Lemma mul_nan_r (x : float) : (x * nan)%float = nan.
Proof.
  apply float_is_nan. rewrite mul_spec.
  change (Prim2SF nan) with S754_nan. now destruct (Prim2SF x).
Qed.

Lemma ltb_nan_r (x : float) : (x <? nan)%float = false.
Proof.
  rewrite ltb_spec. change (Prim2SF nan) with S754_nan.
  unfold SFltb. now destruct (Prim2SF x).
Qed.

Lemma SFcompare_rank (x y : spec_float) :
  x <> S754_nan -> y <> S754_nan ->
  exists c, SFcompare x y = Some c
    /\ (c = Lt <-> below (rank x) (rank y))
    /\ (c = Eq <-> rank x = rank y).
Proof.
  intros Hx Hy.
  destruct x as [sx | sx | | sx mx ex]; [| | congruence |];
    destruct y as [sy | sy | | sy my ey]; try congruence;
    try (destruct sx); try (destruct sy); cbn [SFcompare rank below];
    try (eexists; split; [reflexivity |]; split; split; intros H;
         first [reflexivity | discriminate | lia | (inversion H; lia) ]).
  - change (Pos.compare_cont Eq mx my) with (Pos.compare mx my).
    destruct (Z.compare_spec ex ey) as [E | E | E];
      [destruct (Pos.compare_spec mx my) as [F | F | F] | |];
      (eexists; split; [reflexivity |]; split; split; intros H;
         first [reflexivity | discriminate | lia | (inversion H; lia) | (subst; reflexivity)]).
  - change (Pos.compare_cont Eq mx my) with (Pos.compare mx my).
    destruct (Z.compare_spec ex ey) as [E | E | E];
      [destruct (Pos.compare_spec mx my) as [F | F | F] | |];
      (eexists; split; [reflexivity |]; split; split; intros H;
         first [reflexivity | discriminate | lia | (inversion H; lia) | (subst; reflexivity)]).
Qed.

Lemma SFltb_below (x y : spec_float) :
  SFltb x y = true ->
  x <> S754_nan /\ y <> S754_nan /\ below (rank x) (rank y).
Proof.
  unfold SFltb. intros H.
  assert (Hx : x <> S754_nan) by (intros ->; discriminate).
  assert (Hy : y <> S754_nan) by (intros ->; destruct x; discriminate).
  destruct (SFcompare_rank x y Hx Hy) as (c & E & Hlt & _).
  rewrite E in H. destruct c; try discriminate.
  repeat split; try assumption. now apply Hlt.
Qed.

Lemma below_SFltb (x y : spec_float) :
  x <> S754_nan -> y <> S754_nan -> below (rank x) (rank y) -> SFltb x y = true.
Proof.
  intros Hx Hy H. unfold SFltb.
  destruct (SFcompare_rank x y Hx Hy) as (c & -> & Hlt & _).
  apply Hlt in H. now subst c.
Qed.

Lemma SFleb_below (x y : spec_float) :
  SFleb x y = true ->
  x <> S754_nan /\ y <> S754_nan /\ (below (rank x) (rank y) \/ rank x = rank y).
Proof.
  unfold SFleb. intros H.
  assert (Hx : x <> S754_nan) by (intros ->; discriminate).
  assert (Hy : y <> S754_nan) by (intros ->; destruct x; discriminate).
  destruct (SFcompare_rank x y Hx Hy) as (c & E & Hlt & Heq).
  rewrite E in H. destruct c; try discriminate.
  - repeat split; try assumption. right. now apply Heq.
  - repeat split; try assumption. left. now apply Hlt.
Qed.

Lemma below_trans a b c : below a b -> below b c -> below a c.
Proof.
  destruct a as [[a1 a2] a3], b as [[b1 b2] b3], c as [[c1 c2] c3].
  unfold below. lia.
Qed.

Lemma below_irrefl a : ~ below a a.
Proof. destruct a as [[a1 a2] a3]. unfold below. lia. Qed.

(** [<] on numbers is irreflexive and passes through [<=]. *)
Lemma ltb_irrefl (x : float) : (x <? x)%float = false.
Proof.
  destruct (x <? x)%float eqn:E; [| reflexivity].
  rewrite ltb_spec in E. apply SFltb_below in E.
  destruct E as (_ & _ & E). now apply below_irrefl in E.
Qed.

Lemma ltb_leb_trans (x y z : float) :
  (x <? y)%float = true -> (y <=? z)%float = true -> (x <? z)%float = true.
Proof.
  rewrite !ltb_spec, leb_spec. intros H1 H2.
  apply SFltb_below in H1. destruct H1 as (Hx & Hy & H1).
  apply SFleb_below in H2. destruct H2 as (_ & Hz & H2).
  apply below_SFltb; try assumption.
  destruct H2 as [H2 | H2]; [eapply below_trans; eassumption | now rewrite <- H2].
Qed.

Lemma ltb_leb (x y : float) : (x <? y)%float = true -> (x <=? y)%float = true.
Proof.
  rewrite ltb_spec, leb_spec. unfold SFltb, SFleb.
  destruct (SFcompare _ _) as [[| |] |]; congruence.
Qed.

Lemma ltb_trans (x y z : float) :
  (x <? y)%float = true -> (y <? z)%float = true -> (x <? z)%float = true.
Proof. intros H1 H2. eapply ltb_leb_trans; [eassumption | now apply ltb_leb]. Qed.

(** Rounding keeps a clear sign bit. *)
Lemma binary_round_aux_unsigned m e l :
  unsigned (binary_round_aux prec emax false m e l).
Proof.
  unfold binary_round_aux.
  destruct (shr_fexp prec emax m e l) as [mrs' e'].
  destruct (shr_fexp prec emax _ e' loc_Exact) as [mrs'' e''].
  destruct (shr_m mrs''); simpl; auto.
  destruct (_ <=? _); simpl; auto.
Qed.

(** [Math.abs(x) / 2] and [Math.abs(x) * 0.5] have a clear sign bit. *)
Lemma half_abs_unsigned (x : float) : unsigned (Prim2SF (abs x / 2)%float).
Proof.
  rewrite div_spec, abs_spec.
  change (Prim2SF 2) with (S754_finite false 4503599627370496 (-51)).
  unfold SF64div, SFdiv.
  destruct (Prim2SF x) as [s | s | | s m e]; simpl; auto.
  destruct (SFdiv_core_binary prec emax (Z.pos m) e 4503599627370496 (-51)) as [[mz ez] lz].
  apply binary_round_aux_unsigned.
Qed.

Lemma abs_half_unsigned (x : float) : unsigned (Prim2SF (abs x * 0.5)%float).
Proof.
  rewrite mul_spec, abs_spec.
  change (Prim2SF 0.5) with (S754_finite false 4503599627370496 (-53)).
  unfold SF64mul, SFmul.
  destruct (Prim2SF x) as [s | s | | s m e]; simpl; auto.
  apply binary_round_aux_unsigned.
Qed.

(** A number with a clear sign bit is above the sentinel [-1] of the
    selection loops, unless it is NaN. *)
Lemma unsigned_beats_sentinel (x : float) :
  unsigned (Prim2SF x) -> (-1 <? x)%float = false -> x = nan.
Proof.
  rewrite ltb_spec. intros H Hlt. apply float_is_nan.
  change (Prim2SF (-1)) with (S754_finite true 4503599627370496 (-52)) in Hlt.
  unfold SFltb in Hlt. destruct (Prim2SF x) as [s | s | | s m e]; simpl in *; subst;
    try discriminate; reflexivity.
Qed.

Lemma unsigned_not_negative (x : float) :
  unsigned (Prim2SF x) -> (x <? 0)%float = false.
Proof.
  rewrite ltb_spec. intros H.
  change (Prim2SF 0) with (S754_zero false).
  unfold SFltb. destruct (Prim2SF x) as [s | s | | s m e]; simpl in *; subst; reflexivity.
Qed.

Lemma triangleArea_unsigned a b c : unsigned (Prim2SF (triangleArea a b c)).
Proof. unfold triangleArea. apply half_abs_unsigned. Qed.

(** An area is NaN when the first corner has a NaN x coordinate. *)
Lemma triangleArea_nan_x (py : float) (b c : float * float) :
  triangleArea (nan, py) b c = nan.
Proof.
  unfold triangleArea. cbn [fst snd].
  rewrite !sub_nan_l, !mul_nan_l. reflexivity.
Qed.

(** *** Lists and counting loops *)

Lemma range_nil (lo hi : Z) : hi <= lo -> range lo hi = [].
Proof. intros H. unfold range. now replace (Z.to_nat (hi - lo)) with 0%nat by lia. Qed.

Lemma range_snoc (lo hi : Z) : lo <= hi -> range lo (hi + 1) = range lo hi ++ [hi].
Proof.
  intros H. unfold range.
  replace (Z.to_nat (hi + 1 - lo)) with (S (Z.to_nat (hi - lo))) by lia.
  rewrite seq_S, map_app. simpl. f_equal. f_equal. lia.
Qed.

(** Where a counting range is cut in two around [k], the front part holds
    every index below [k]. *)
Lemma range_split (before after : list Z) (k : Z) :
  forall lo hi,
    range lo hi = before ++ k :: after ->
    lo <= k < hi /\ forall j, lo <= j < k -> In j before.
Proof.
  induction before as [| b rest IH]; intros lo hi H.
  - destruct (Z_lt_le_dec lo hi) as [Hlt | Hle];
      [| rewrite range_nil in H by assumption; discriminate].
    rewrite range_cons in H by assumption. inversion H; subst. split; [lia |].
    intros j Hj. lia.
  - destruct (Z_lt_le_dec lo hi) as [Hlt | Hle];
      [| rewrite range_nil in H by assumption; discriminate].
    rewrite range_cons in H by assumption. inversion H; subst.
    destruct (IH _ _ H2) as (Hk & Hall). split; [lia |].
    intros j Hj. destruct (Z.eq_dec j b) as [-> | Hne]; [now left | right].
    apply Hall. lia.
Qed.

Lemma item_In {A : Type} (l : list A) (j : Z) (x : A) : item l j = Some x -> In x l.
Proof.
  unfold item. destruct (j <? 0); [discriminate |]. apply nth_error_In.
Qed.

Lemma item_bounds {A : Type} (l : list A) (j : Z) (x : A) :
  item l j = Some x -> 0 <= j < len l.
Proof.
  unfold item, len. destruct (j <? 0) eqn:E; [discriminate |].
  apply Z.ltb_ge in E. intros H.
  assert (Hn : nth_error l (Z.to_nat j) <> None) by congruence.
  apply nth_error_Some in Hn. lia.
Qed.

Lemma item_snoc {A : Type} (l : list A) (x y : A) (j : Z) :
  item (l ++ [x]) j = Some y -> item l j = Some y \/ (j = len l /\ y = x).
Proof.
  intros H. pose proof (item_bounds _ _ _ H) as Hj.
  rewrite len_app in Hj. change (len [x]) with 1 in Hj.
  unfold item in *. destruct (j <? 0) eqn:E; [discriminate |].
  destruct (Z_lt_le_dec j (len l)) as [Hlt | Hge].
  - left. rewrite nth_error_app1 in H by (unfold len in Hlt; lia). exact H.
  - right. assert (j = len l) by lia. subst j. split; [reflexivity |].
    rewrite nth_error_app2 in H by (unfold len; lia).
    replace (Z.to_nat (len l) - List.length l)%nat with 0%nat in H by (unfold len; lia).
    simpl in H. congruence.
Qed.

(** A loop that keeps the larger of its running maximum and [f j], with
    the index it came from: either nothing beat the initial value, or the
    result is the first index whose [f] no other index exceeds. *)
Lemma largest_wins (f : Z -> float) (body : Z -> float * Z -> result (float * Z))
  (js : list Z) :
  (forall j best r, In j js -> body j best = Ok r ->
     r = if (fst best <? f j)%float then (f j, j) else best) ->
  forall init m k,
    forEach body js init = Ok (m, k) ->
    ((m, k) = init /\ forall j, In j js -> (fst init <? f j)%float = false)
    \/ (exists before after,
          js = before ++ k :: after
          /\ m = f k
          /\ (fst init <? f k)%float = true
          /\ (forall j, In j js -> (f k <? f j)%float = false)
          /\ (forall j, In j before -> (f k <=? f j)%float = false)).
Proof.
  induction js as [| j rest IH]; intros Hbody init m k H.
  - simpl in H. inversion H; subst. left. split; [reflexivity |]. intros j [].
  - simpl in H. apply bind_Ok in H. destruct H as (init1 & H1 & H2).
    apply Hbody in H1; [| now left].
    assert (Hrest : forall j' best r, In j' rest -> body j' best = Ok r ->
              r = if (fst best <? f j')%float then (f j', j') else best).
    { intros j' best r Hin. apply Hbody. now right. }
    specialize (IH Hrest init1 m k H2). clear Hrest H2.
    destruct (fst init <? f j)%float eqn:E; subst init1; cbn [fst] in IH.
    + destruct IH as [(Heq & Hnone) | (before & after & -> & -> & Hgt & Hall & Hbefore)].
      * inversion Heq; subst. right. exists [], rest.
        repeat split; try assumption.
        -- intros j' [<- | Hin]; [apply ltb_irrefl | now apply Hnone].
        -- intros j' [].
      * right. exists (j :: before), after.
        repeat split.
        -- eapply ltb_trans; eassumption.
        -- intros j' [<- | Hin]; [| now apply Hall].
           destruct (f k <? f j)%float eqn:F; [| reflexivity].
           pose proof (ltb_trans _ _ _ Hgt F) as C. now rewrite ltb_irrefl in C.
        -- intros j' [<- | Hin]; [| now apply Hbefore].
           destruct (f k <=? f j)%float eqn:F; [| reflexivity].
           pose proof (ltb_leb_trans _ _ _ Hgt F) as C. now rewrite ltb_irrefl in C.
    + destruct IH as [(Heq & Hnone) | (before & after & -> & -> & Hgt & Hall & Hbefore)].
      * left. split; [assumption |]. intros j' [<- | Hin]; [assumption | now apply Hnone].
      * right. exists (j :: before), after.
        repeat split; try assumption.
        -- intros j' [<- | Hin]; [| now apply Hall].
           destruct (f k <? f j)%float eqn:F; [| reflexivity].
           pose proof (ltb_trans _ _ _ Hgt F) as C. congruence.
        -- intros j' [<- | Hin]; [| now apply Hbefore].
           destruct (f k <=? f j)%float eqn:F; [| reflexivity].
           pose proof (ltb_leb_trans _ _ _ Hgt F) as C. congruence.
Qed.

(** [largest_wins] over a counting range. *)
Lemma largest_wins_range (f : Z -> float) (body : Z -> float * Z -> result (float * Z))
  (lo hi : Z) (init : float * Z) (m : float) (k : Z) :
  (forall j best r, lo <= j < hi -> body j best = Ok r ->
     r = if (fst best <? f j)%float then (f j, j) else best) ->
  forEach body (range lo hi) init = Ok (m, k) ->
  ((m, k) = init /\ forall j, lo <= j < hi -> (fst init <? f j)%float = false)
  \/ (lo <= k < hi
      /\ m = f k
      /\ (forall j, lo <= j < hi -> (f k <? f j)%float = false)
      /\ (forall j, lo <= j < k -> (f k <=? f j)%float = false)).
Proof.
  intros Hbody H.
  apply (largest_wins f) in H;
    [| intros j best r Hin; apply Hbody; now apply In_range].
  destruct H as [(Heq & Hnone) | (before & after & Hsplit & Hm & _ & Hall & Hbefore)].
  - left. split; [assumption |]. intros j Hj. now apply Hnone, In_range.
  - right. destruct (range_split _ _ _ _ _ Hsplit) as (Hk & Hfront).
    repeat split; try lia; try assumption.
    + intros j Hj. now apply Hall, In_range.
    + intros j Hj. now apply Hbefore, Hfront.
Qed.

(** *** One index per bucket *)

Lemma perBucket_push {T : Type} (ok : Z -> Z -> Prop) (n i k : Z) (st st' : LoopState T) :
  perBucket ok n i st ->
  picked st' = picked st ++ [k] ->
  prevSelectedIndex st' = k ->
  0 <= k < n -> ok i k ->
  perBucket ok n (i + 1) st'.
Proof.
  intros (_ & mids & Hpicked & Hlen & Hok) Hpush Hprev Hk Hi.
  split; [lia |]. exists (mids ++ [k]).
  split; [now rewrite Hpush, Hpicked |].
  split; [rewrite len_app, Hlen; reflexivity |].
  intros b j Hb. apply item_snoc in Hb.
  destruct Hb as [Hb | (-> & ->)]; [now apply Hok | now rewrite Hlen].
Qed.

Lemma inBucket_spec (n t i x : Z) :
  inBucket n t i x = true <-> bucketStart n t i <= x < bucketEnd n t i.
Proof.
  unfold inBucket. rewrite andb_true_iff, Z.leb_le, Z.ltb_lt. reflexivity.
Qed.

Section OnePerBucket.

Variable getTime : string -> float.
Variable data : list DataPoint.
Variables xKey yKey : string.
Variable t : Z.
Hypothesis Ht : 3 <= t.
Hypothesis Hinside : bucketsInside (len data) t = true.

Lemma bucketStep_perBucket i st :
  0 <= i < t - 2 ->
  perBucket (fun b j => inBucket (len data) t b j = true) (len data) i st ->
  exists st',
    bucketStep getTime data xKey yKey t i st = Ok st'
    /\ perBucket (fun b j => inBucket (len data) t b j = true) (len data) (i + 1) st'.
Proof.
  intros Hi Hst. pose proof Hst as (Hprev & _).
  destruct (bucketsInside_spec _ _ _ Hinside Hi) as (Hs & He).
  unfold bucketStep.
  destruct (nextBucketAverage_returns getTime data xKey yKey t Hinside i Hi) as (avg & ->).
  destruct (fieldAt_inside data (prevSelectedIndex st) xKey Hprev) as (px & ->).
  destruct (fieldAt_inside data (prevSelectedIndex st) yKey Hprev) as (py & ->).
  cbn [bind].
  destruct (selection_returns getTime data xKey yKey t Hinside i (xNum getTime px, yNum py) avg Hi)
    as (best & -> & Hbest).
  cbn [bind]. eexists. split; [reflexivity |].
  eapply perBucket_push; [exact Hst | reflexivity | reflexivity | cbn; lia |].
  apply inBucket_spec. exact Hbest.
Qed.

Lemma bucket_loop_perBucket :
  exists st,
    forEach (bucketStep getTime data xKey yKey t) (range 0 (t - 2))
      (push data 0 (mkLoop [] [] 0)) = Ok st
    /\ perBucket (fun b j => inBucket (len data) t b j = true) (len data) (t - 2) st.
Proof.
  destruct (bucketsInside_spec _ _ 0 Hinside ltac:(lia)) as (Hs & He).
  apply (forEach_counting
           (perBucket (fun b j => inBucket (len data) t b j = true) (len data)))
    with (k := Z.to_nat (t - 2 - 0)); [reflexivity | lia | |].
  - intros i st Hi. apply bucketStep_perBucket. assumption.
  - unfold perBucket, push; cbn [picked prevSelectedIndex app].
    split; [lia |]. exists []. repeat split.
    intros b j Hb. apply item_bounds in Hb. change (len (@nil Z)) with 0 in Hb. lia.
Qed.

End OnePerBucket.

(** *** Coordinates that are NaN *)

Section Degenerate.

Variable getTime : string -> float.
Variable data : list DataPoint.
Variables xKey yKey : string.
Variable t : Z.
Hypothesis Ht : 3 <= t.
Hypothesis Hinside : bucketsInside (len data) t = true.
Hypothesis Hnan : forall p, In p data -> xNum getTime (getField p xKey) = nan.

Lemma selection_stays i prev px avg :
  0 <= i < t - 2 ->
  item data prev = Some px ->
  forEach (selectStep getTime data xKey yKey
             (xNum getTime (getField px xKey), yNum (getField px yKey)) avg)
    (range (bucketStart (len data) t i) (bucketEnd (len data) t i))
    ((-1)%float, bucketStart (len data) t i)
  = Ok ((-1)%float, bucketStart (len data) t i).
Proof.
  intros Hi Hprev.
  destruct (bucketsInside_spec _ _ _ Hinside Hi) as (Hs & He).
  assert (Harea : forall b, triangleArea
            (xNum getTime (getField px xKey), yNum (getField px yKey)) b avg = nan).
  { intros b. rewrite (Hnan px (item_In _ _ _ Hprev)). apply triangleArea_nan_x. }
  destruct (forEach_keeping
              (fun best => best = ((-1)%float, bucketStart (len data) t i))
              (selectStep getTime data xKey yKey
                 (xNum getTime (getField px xKey), yNum (getField px yKey)) avg)
              (range (bucketStart (len data) t i) (bucketEnd (len data) t i)))
    with (s := ((-1)%float, bucketStart (len data) t i)) as (best & Hb & ->);
    [| reflexivity | exact Hb].
  intros j best Hj ->. apply In_range in Hj.
  assert (Hin : 0 <= j < len data) by lia.
  unfold selectStep.
  destruct (fieldAt_inside data j xKey Hin) as (xv & ->).
  destruct (fieldAt_inside data j yKey Hin) as (yv & ->).
  cbn [bind]. rewrite Harea, ltb_nan_r. eauto.
Qed.

Lemma bucketStep_first i st :
  0 <= i < t - 2 -> firsts (len data) t i st ->
  exists st',
    bucketStep getTime data xKey yKey t i st = Ok st' /\ firsts (len data) t (i + 1) st'.
Proof.
  intros Hi (Hpicked & Hprev).
  destruct (bucketsInside_spec _ _ _ Hinside Hi) as (Hs & He).
  unfold bucketStep.
  destruct (nextBucketAverage_returns getTime data xKey yKey t Hinside i Hi) as (avg & ->).
  destruct (item_inside data (prevSelectedIndex st) Hprev) as (px & Hpx).
  unfold fieldAt. rewrite Hpx. cbn [bind].
  rewrite (selection_stays i (prevSelectedIndex st) px avg Hi Hpx). cbn [bind snd].
  eexists. split; [reflexivity |].
  unfold firsts; cbn [picked prevSelectedIndex]. split; [| lia].
  rewrite Hpicked, range_snoc by lia. rewrite map_app. reflexivity.
Qed.

Lemma bucket_loop_firsts :
  exists st,
    forEach (bucketStep getTime data xKey yKey t) (range 0 (t - 2))
      (push data 0 (mkLoop [] [] 0)) = Ok st
    /\ firsts (len data) t (t - 2) st.
Proof.
  destruct (bucketsInside_spec _ _ 0 Hinside ltac:(lia)) as (Hs & He).
  apply (forEach_counting (firsts (len data) t)) with (k := Z.to_nat (t - 2 - 0));
    [reflexivity | lia | |].
  - intros i st Hi. apply bucketStep_first. assumption.
  - unfold firsts, push; cbn [picked prevSelectedIndex app]. split; [reflexivity | lia].
Qed.

End Degenerate.

(** *** Key resolution *)

Lemma supplied_idem (key : option string) (k : string) :
  supplied key = Some k -> supplied (Some k) = Some k.
Proof.
  unfold supplied. destruct key as [s |]; [| discriminate].
  destruct (s =? "")%string eqn:E; [discriminate |].
  intros H. inversion H; subst. now rewrite E.
Qed.

(** The y key fails to resolve exactly when none is supplied and the scan
    of the first record finds nothing, or finds the field named by the
    empty string. *)
Lemma resolveYKey_fails (data : list DataPoint) (xKey : string) (yKey : option string) :
  resolveYKey data xKey yKey = Err ResolutionError <->
  supplied yKey = None
  /\ forall p0 key, item data 0 = Some p0 -> firstNumericKey p0 xKey = Some key -> key = "".
Proof.
  unfold resolveYKey. destruct (supplied yKey) as [k |] eqn:S.
  - rewrite (supplied_idem _ _ S). split; [discriminate | intros (C & _); discriminate].
  - destruct (item data 0) as [p0 |].
    + destruct (firstNumericKey p0 xKey) as [key |] eqn:F.
      * cbn [supplied]. destruct (key =? "")%string eqn:K.
        -- apply String.eqb_eq in K. subst key. split; [| reflexivity].
           intros _. split; [reflexivity |]. intros p0' key' Hp Hf. congruence.
        -- split; [discriminate |]. intros (_ & Hall).
           specialize (Hall p0 key eq_refl F). subst key. discriminate.
      * cbn [supplied]. split; [| reflexivity].
        intros _. split; [reflexivity |]. intros p0' key' Hp Hf. congruence.
    + cbn [supplied]. split; [| reflexivity].
      intros _. split; [reflexivity |]. intros p0' key' Hp. discriminate.
Qed.

(** *** The chart sampler *)

Lemma readingAt_inside (data : list BatteryReading) (j : Z) :
  0 <= j < len data -> exists r, readingAt data j = Ok r.
Proof.
  intros Hj. unfold readingAt.
  destruct (item_inside data j Hj) as (r & ->). eauto.
Qed.

Lemma items_defined {A : Type} (data : list A) (js : list Z) :
  Forall (fun j => 0 <= j < len data) js ->
  exists out,
    map (item data) js = map Some out
    /\ Forall (fun x => In x data) out
    /\ List.length out = List.length js.
Proof.
  induction 1 as [| j js Hj _ (out & Hmap & Hin & Hlen)].
  - exists []. repeat split. constructor.
  - destruct (item_inside data j Hj) as (x & Hx).
    exists (x :: out). simpl. rewrite Hx, Hmap, Hlen. repeat split.
    constructor; [| assumption]. eapply item_In; eassumption.
Qed.

Lemma Forall_item {A : Type} (P : A -> Prop) (l : list A) :
  (forall b x, item l b = Some x -> P x) -> Forall P l.
Proof.
  intros H. apply Forall_forall. intros x Hin.
  apply In_nth_error in Hin. destruct Hin as (k & Hk).
  apply (H (Z.of_nat k)). unfold item.
  destruct (Z.of_nat k <? 0) eqn:E; [apply Z.ltb_lt in E; lia |].
  now rewrite Nat2Z.id.
Qed.

Section ChartSampler.

Variable getTime : string -> float.

Lemma sampleStep_ghost data t i st st' :
  sampled st = map (item data) (picked st) ->
  sampleStep getTime data t i st = Ok st' ->
  sampled st' = map (item data) (picked st').
Proof.
  unfold sampleStep. intros Hg H. unbind H.
  inversion H; subst; simpl. now rewrite map_app, Hg.
Qed.

Lemma sampleRun_ghost data t st :
  sampleRun getTime data t = Ok st ->
  sampled st = map (item data) (picked st).
Proof.
  unfold sampleRun. intros H. unbind H.
  inversion H; subst; clear H. simpl.
  rewrite map_app. simpl. f_equal.
  eapply (forEach_invariant (fun s => sampled s = map (item data) (picked s)));
    [| | exact Ha]; [| reflexivity].
  intros j s s' Hs Hb. eapply sampleStep_ghost; eassumption.
Qed.

Lemma sampleIndices_sound data t js :
  sampleIndices getTime data t = Ok js ->
  sampleData getTime data t = Ok (map (item data) js).
Proof.
  unfold sampleIndices, sampleData.
  destruct (len data <=? t).
  - intros H. inversion H; subst. now rewrite passthrough_items.
  - intros H. unbind H. inversion H; subst. simpl.
    now rewrite (sampleRun_ghost _ _ _ Ha).
Qed.

Lemma sampleRun_shape data t st :
  sampleRun getTime data t = Ok st ->
  exists mid,
    sampled st = item data 0 :: mid ++ [item data (len data - 1)]
    /\ List.length mid = Z.to_nat (t - 2).
Proof.
  unfold sampleRun. intros H. unbind H. inversion H; subst; clear H.
  apply forEach_pushes in Ha; [| intros; eapply sampleStep_pushes; eassumption].
  destruct Ha as (mid & Hmid & Hlen).
  exists mid. simpl. rewrite Hmid. simpl.
  now rewrite range_length, Z.sub_0_r in Hlen.
Qed.

End ChartSampler.

Section ChartInside.

Variable getTime : string -> float.
Variable data : list BatteryReading.
Variable t : Z.
Hypothesis Ht : 3 <= t.
Hypothesis Hinside : bucketsInside (len data) t = true.

Lemma sums_return i :
  0 <= i < t - 2 ->
  exists sums,
    forEach (sumStep getTime data)
      (range (floorZ (ofZ (i + 1) * bucketSize (len data) t)%float + 1)
             (if floorZ (ofZ (i + 2) * bucketSize (len data) t)%float + 1 <? len data
              then floorZ (ofZ (i + 2) * bucketSize (len data) t)%float + 1
              else len data))
      (0%float, 0%float) = Ok sums.
Proof.
  intros Hi.
  destruct (bucketsInside_spec _ _ _ Hinside Hi) as (Hs & He).
  unfold bucketEnd in Hs, He.
  destruct (forEach_keeping (fun _ => True) (sumStep getTime data)
              (range (floorZ (ofZ (i + 1) * bucketSize (len data) t)%float + 1)
                 (if floorZ (ofZ (i + 2) * bucketSize (len data) t)%float + 1 <? len data
                  then floorZ (ofZ (i + 2) * bucketSize (len data) t)%float + 1
                  else len data)))
    with (s := (0%float, 0%float)) as (sums & H & _); [| exact I | eauto].
  intros j acc Hj _. apply In_range in Hj.
  assert (Hin : 0 <= j < len data).
  { destruct (_ <? len data) eqn:E in Hj; [apply Z.ltb_lt in E |]; lia. }
  unfold sumStep. destruct (readingAt_inside data j Hin) as (r & ->).
  cbn [bind]. eauto.
Qed.

Lemma areas_return i ax ay avgX avgY (P : Z -> Prop) :
  0 <= i < t - 2 ->
  P 0 ->
  (forall j, bucketStart (len data) t i <= j < bucketEnd (len data) t i -> P j) ->
  exists best,
    forEach (areaStep getTime data ax ay avgX avgY)
      (range (bucketStart (len data) t i) (bucketEnd (len data) t i))
      ((-1)%float, 0) = Ok best
    /\ P (snd best).
Proof.
  intros Hi P0 Pj.
  destruct (bucketsInside_spec _ _ _ Hinside Hi) as (Hs & He).
  apply forEach_keeping with (P := fun best => P (snd best)); [| exact P0].
  intros j [maxArea maxAreaPoint] Hj Hbest. apply In_range in Hj.
  unfold areaStep.
  destruct (readingAt_inside data j ltac:(lia)) as (r & ->). cbn [bind].
  destruct (_ <? _)%float; eauto.
Qed.

Lemma sampleStep_perBucket i st :
  0 <= i < t - 2 ->
  perBucket (fun b j => j = 0 \/ inBucket (len data) t b j = true) (len data) i st ->
  exists st',
    sampleStep getTime data t i st = Ok st'
    /\ perBucket (fun b j => j = 0 \/ inBucket (len data) t b j = true) (len data) (i + 1) st'.
Proof.
  intros Hi Hst. pose proof Hst as (Hprev & _).
  destruct (bucketsInside_spec _ _ _ Hinside Hi) as (Hs & He).
  unfold sampleStep.
  destruct (sums_return i Hi) as (sums & ->). cbn [bind].
  destruct (readingAt_inside data (prevSelectedIndex st) Hprev) as (pa & ->). cbn [bind].
  match goal with
  | |- context [forEach (areaStep getTime data ?ax ?ay ?gx ?gy) _ _] =>
      destruct (areas_return i ax ay gx gy
                  (fun j => j = 0 \/ inBucket (len data) t i j = true) Hi)
        as (best & Hb & Hbest);
        [now left | intros j Hj; right; now apply inBucket_spec |]
  end.
  unfold bucketStart, bucketEnd in Hb. rewrite Hb. cbn [bind]. eexists. split; [reflexivity |].
  eapply perBucket_push; [exact Hst | reflexivity | reflexivity | | exact Hbest].
  cbn [prevSelectedIndex].
  destruct Hbest as [-> | Hbest]; [lia |]. apply inBucket_spec in Hbest. lia.
Qed.

Lemma chart_loop_perBucket :
  exists st,
    forEach (sampleStep getTime data t) (range 0 (t - 2))
      (push data 0 (mkLoop [] [] 0)) = Ok st
    /\ perBucket (fun b j => j = 0 \/ inBucket (len data) t b j = true)
         (len data) (t - 2) st.
Proof.
  destruct (bucketsInside_spec _ _ 0 Hinside ltac:(lia)) as (Hs & He).
  apply (forEach_counting
           (perBucket (fun b j => j = 0 \/ inBucket (len data) t b j = true) (len data)))
    with (k := Z.to_nat (t - 2 - 0)); [reflexivity | lia | |].
  - intros i st Hi. apply sampleStep_perBucket. assumption.
  - unfold perBucket, push; cbn [picked prevSelectedIndex app].
    split; [lia |]. exists []. repeat split.
    intros b j Hb. apply item_bounds in Hb. change (len (@nil Z)) with 0 in Hb. lia.
Qed.

(** Above a threshold of at least 3 whose buckets stay inside the array,
    [sampleData] returns: index 0, then per bucket index 0 again or an
    index of the bucket, then the last index. *)
Lemma sampleIndices_inside :
  t < len data ->
  exists mids,
    sampleIndices getTime data t = Ok (0 :: mids ++ [len data - 1])
    /\ len mids = t - 2
    /\ (forall b j, item mids b = Some j -> j = 0 \/ inBucket (len data) t b j = true)
    /\ Forall (fun j => 0 <= j < len data) (0 :: mids ++ [len data - 1]).
Proof.
  intros Hlt.
  destruct chart_loop_perBucket as (st & Hloop & _ & mids & Hpicked & Hlen & Hok).
  exists mids. repeat split; try assumption.
  - unfold sampleIndices, sampleRun.
    destruct (len data <=? t) eqn:E; [apply Z.leb_le in E; lia |].
    rewrite Hloop. cbn [bind]. unfold push. cbn [picked]. now rewrite Hpicked.
  - constructor; [lia |]. apply Forall_app. split.
    + apply Forall_item. intros b j Hb.
      pose proof (item_bounds _ _ _ Hb) as Hbb. rewrite Hlen in Hbb.
      destruct (bucketsInside_spec _ _ _ Hinside Hbb) as (Hs & He).
      destruct (Hok b j Hb) as [-> | Hj]; [lia |].
      apply inBucket_spec in Hj. lia.
    + constructor; [lia | constructor].
Qed.

End ChartInside.

Section Poisoned.

Variable getTime : string -> float.
Variable data : list BatteryReading.
Variable t : Z.
Variable first : BatteryReading.
Hypothesis Ht : 3 <= t.
Hypothesis Hinside : bucketsInside (len data) t = true.
Hypothesis Hfirst : item data 0 = Some first.
Hypothesis Hnan : getTime (timestamp first) = nan \/ voltage first = nan.

Lemma areas_nan i avgX avgY :
  0 <= i < t - 2 ->
  forEach (areaStep getTime data (getTime (timestamp first)) (voltage first) avgX avgY)
    (range (bucketStart (len data) t i) (bucketEnd (len data) t i))
    ((-1)%float, 0) = Ok ((-1)%float, 0).
Proof.
  intros Hi.
  destruct (bucketsInside_spec _ _ _ Hinside Hi) as (Hs & He).
  destruct (forEach_keeping (fun best => best = ((-1)%float, 0))
              (areaStep getTime data (getTime (timestamp first)) (voltage first) avgX avgY)
              (range (bucketStart (len data) t i) (bucketEnd (len data) t i)))
    with (s := ((-1)%float, 0)) as (best & Hb & ->); [| reflexivity | exact Hb].
  intros j best Hj ->. apply In_range in Hj.
  unfold areaStep.
  destruct (readingAt_inside data j ltac:(lia)) as (r & ->). cbn [bind].
  assert (Harea : (abs ((getTime (timestamp first) - avgX) * (voltage r - voltage first)
                        - (getTime (timestamp first) - getTime (timestamp r))
                          * (avgY - voltage first)) * 0.5)%float = nan).
  { destruct Hnan as [-> | ->].
    - rewrite !sub_nan_l, !mul_nan_l. reflexivity.
    - rewrite !sub_nan_r, !mul_nan_r. reflexivity. }
  rewrite Harea, ltb_nan_r. eauto.
Qed.

Lemma sampleStep_stuck i st :
  0 <= i < t - 2 -> stuck first i st ->
  exists st', sampleStep getTime data t i st = Ok st' /\ stuck first (i + 1) st'.
Proof.
  intros Hi (Hsampled & Hprev).
  unfold sampleStep.
  destruct (sums_return getTime data t Hinside i Hi) as (sums & ->). cbn [bind].
  rewrite Hprev. unfold readingAt at 1. rewrite Hfirst. cbn [bind].
  match goal with
  | |- context [forEach (areaStep getTime data _ _ ?gx ?gy) _ _] =>
      pose proof (areas_nan i gx gy Hi) as Hb
  end.
  unfold bucketStart, bucketEnd in Hb. rewrite Hb. cbn [bind snd].
  eexists. split; [reflexivity |].
  unfold stuck; cbn [sampled prevSelectedIndex]. split; [| reflexivity].
  rewrite Hsampled, Hfirst.
  replace (Z.to_nat (i + 1 + 1)) with (S (Z.to_nat (i + 1))) by lia.
  simpl. now rewrite repeat_cons.
Qed.

End Poisoned.

(** *** Buckets whose boundaries round exactly *)

Lemma roundsExactly_spec (n t i : Z) :
  roundsExactly n t = true -> 0 <= i <= t ->
  floorZ (ofZ i * bucketSize n t)%float = Exact.boundary n t i.
Proof.
  unfold roundsExactly. intros H Hi. rewrite forallb_forall in H.
  apply Z.eqb_eq, H, In_range. lia.
Qed.

Lemma roundsExactly_buckets (n t i : Z) :
  roundsExactly n t = true -> 0 <= i < t - 2 ->
  bucketStart n t i = Exact.bucketStart n t i
  /\ bucketEnd n t i = Exact.bucketEnd n t i
  /\ nextBucketStart n t i = Exact.nextBucketStart n t i
  /\ nextBucketEnd n t i = Exact.nextBucketEnd n t i.
Proof.
  intros H Hi.
  unfold bucketStart, bucketEnd, nextBucketStart, nextBucketEnd,
    Exact.bucketStart, Exact.bucketEnd, Exact.nextBucketStart, Exact.nextBucketEnd.
  rewrite !(roundsExactly_spec n t) by (assumption || lia). auto.
Qed.

Lemma leb_trans (x y z : float) :
  (x <=? y)%float = true -> (y <=? z)%float = true -> (x <=? z)%float = true.
Proof.
  rewrite !leb_spec. intros H1 H2.
  apply SFleb_below in H1. destruct H1 as (Hx & Hy & H1).
  apply SFleb_below in H2. destruct H2 as (_ & Hz & H2).
  unfold SFleb.
  destruct (SFcompare_rank _ _ Hx Hz) as (c & -> & Hlt & Heq).
  assert (Hc : c = Lt \/ c = Eq).
  { destruct H1 as [H1 | H1], H2 as [H2 | H2].
    - left. apply Hlt. eapply below_trans; eassumption.
    - left. apply Hlt. now rewrite <- H2.
    - left. apply Hlt. now rewrite H1.
    - right. apply Heq. congruence. }
  destruct Hc as [-> | ->]; reflexivity.
Qed.

(** ** Properties beyond the claims

    *** [triangleArea] and the selection of a bucket's point *)

(** X1. [triangleArea] (lines 27-36) never returns a negative number: the
    result is not below zero, and it is either above the sentinel [-1] the
    selection loop starts from, or NaN. *)
Theorem triangleArea_sign (a b c : float * float) :
  (triangleArea a b c <? 0)%float = false
  /\ ((-1 <? triangleArea a b c)%float = true \/ triangleArea a b c = nan).
Proof.
  split.
  - apply unsigned_not_negative, triangleArea_unsigned.
  - destruct (-1 <? triangleArea a b c)%float eqn:E; [now left | right].
    apply unsigned_beats_sentinel; [apply triangleArea_unsigned | exact E].
Qed.



(** *** [downsampleLTTB] *)

(** X3. For an input of at least three elements a sequence returned by
    [downsampleLTTB] (lines 47-158) has [min(len, max(3, threshold))]
    elements, on the passthrough path and on the sampling path alike. *)
Theorem downsampleLTTB_size
  (getTime : string -> float) (data : list DataPoint) (t : Z)
  (xKey yKey : option string) (out : list (option DataPoint)) :
  3 <= len data ->
  downsampleLTTB getTime data t xKey yKey = Ok out ->
  len out = Z.min (len data) (Z.max 3 t).
Proof.
  intros H3 H. rewrite (downsampleLTTB_length_from_three _ _ _ _ _ _ H3 H).
  destruct (len data <=? t) eqn:E; [apply Z.leb_le in E; lia | reflexivity].
Qed.

Lemma downsampleLTTB_size_witness :
  3 <= len (Samples.wave 10)
  /\ downsampleLTTB Samples.clock (Samples.wave 10) 5 None None
     = Ok (map (item (Samples.wave 10)) [0; 2; 5; 7; 9])
  /\ len (map (item (Samples.wave 10)) [0; 2; 5; 7; 9])
     = Z.min (len (Samples.wave 10)) (Z.max 3 5).
Proof.
  split; [vm_compute; discriminate |].
  split; [vm_compute; reflexivity |].
  apply (downsampleLTTB_size Samples.clock (Samples.wave 10) 5 None None).
  - vm_compute; discriminate.
  - vm_compute; reflexivity.
Defined.

(** X4. The empty input.  With a threshold of 0 or more [downsampleLTTB]
    returns the empty sequence.  With a negative threshold the empty input
    is longer than the threshold and the sampling path runs: the call
    fails, with the error for an unresolved y key when an x key is supplied
    and no y key is, and on the read of [data[0]] otherwise. *)
Theorem downsampleLTTB_empty_input
  (getTime : string -> float) (t : Z) (xKey yKey : option string) :
  downsampleLTTB getTime [] t xKey yKey
  = if 0 <=? t then Ok []
    else Err match supplied xKey, supplied yKey with
             | Some _, None => ResolutionError
             | _, _ => TypeError
             end.
Proof.
  unfold downsampleLTTB. change (len []) with 0.
  destruct (0 <=? t) eqn:E; [reflexivity |]. apply Z.leb_gt in E.
  unfold lttbRun, resolveXKey, resolveYKey.
  replace (Z.max 3 t) with 3 by lia.
  destruct (supplied xKey) as [xk |]; [| reflexivity].
  destruct (supplied yKey) as [yk |] eqn:Ey; cbn [bind item].
  - rewrite (supplied_idem _ _ Ey). reflexivity.
  - reflexivity.
Qed.

(** X5. Above the threshold, when the buckets of the clamped target size
    stay inside the array and the keys resolve, [downsampleLTTB] returns
    [data[0]], then for each bucket in turn one element taken from that
    bucket, then the last element: the source indices are inside the array
    and strictly increasing. *)
Theorem downsampleLTTB_one_per_bucket
  (getTime : string -> float) (data : list DataPoint) (t : Z)
  (xKey yKey : option string) (xk yk : string) :
  t < len data ->
  bucketsInside (len data) (Z.max 3 t) = true ->
  resolveXKey data xKey = Ok xk ->
  resolveYKey data xk yKey = Ok yk ->
  exists mids,
    downsampleIndices getTime data t xKey yKey = Ok (0 :: mids ++ [len data - 1])
    /\ downsampleLTTB getTime data t xKey yKey
       = Ok (map (item data) (0 :: mids ++ [len data - 1]))
    /\ len mids = Z.max 3 t - 2
    /\ (forall b j, item mids b = Some j -> inBucket (len data) (Z.max 3 t) b j = true)
    /\ increasing (0 :: mids ++ [len data - 1]) = true
    /\ Forall (fun j => 0 <= j < len data) (0 :: mids ++ [len data - 1]).
Proof.
  intros Hlt Hinside Hx Hy.
  destruct (bucket_loop_perBucket getTime data xk yk (Z.max 3 t) ltac:(lia) Hinside)
    as (st & Hloop & _ & mids & Hpicked & Hlen & Hok).
  assert (Hidx : downsampleIndices getTime data t xKey yKey
                 = Ok (0 :: mids ++ [len data - 1])).
  { unfold downsampleIndices.
    destruct (len data <=? t) eqn:E; [apply Z.leb_le in E; lia |].
    unfold lttbRun. rewrite Hx. cbn [bind]. rewrite Hy. cbn [bind].
    rewrite Hloop. cbn [bind]. unfold push. cbn [picked]. now rewrite Hpicked. }
  exists mids.
  split; [exact Hidx |].
  split; [apply downsampleIndices_sound; exact Hidx |].
  split; [exact Hlen |]. split; [exact Hok |].
  destruct (downsampleLTTB_in_order getTime data t xKey yKey xk yk Hlt Hinside Hx Hy)
    as (js & Hjs & _ & Hinc & Hall & _).
  rewrite Hidx in Hjs. inversion Hjs; subst js. split; assumption.
Qed.

(** Ten points reduced to five: the buckets are 1..2, 3..5 and 6..8, and
    the indices 2, 5 and 7 are taken from them. *)
Lemma downsampleLTTB_one_per_bucket_witness :
  5 < len (Samples.wave 10)
  /\ bucketsInside (len (Samples.wave 10)) (Z.max 3 5) = true
  /\ exists mids,
       downsampleIndices Samples.clock (Samples.wave 10) 5 None None
       = Ok (0 :: mids ++ [len (Samples.wave 10) - 1])
       /\ downsampleLTTB Samples.clock (Samples.wave 10) 5 None None
          = Ok (map (item (Samples.wave 10)) (0 :: mids ++ [len (Samples.wave 10) - 1]))
       /\ len mids = Z.max 3 5 - 2
       /\ (forall b j, item mids b = Some j ->
             inBucket (len (Samples.wave 10)) (Z.max 3 5) b j = true)
       /\ increasing (0 :: mids ++ [len (Samples.wave 10) - 1]) = true
       /\ Forall (fun j => 0 <= j < len (Samples.wave 10))
            (0 :: mids ++ [len (Samples.wave 10) - 1]).
Proof.
  split; [vm_compute; reflexivity |].
  split; [vm_compute; reflexivity |].
  apply (downsampleLTTB_one_per_bucket Samples.clock (Samples.wave 10) 5 None None
           "time" "value"); vm_compute; reflexivity.
Defined.

(** X6. Where the x coordinate of every point is NaN (the x field is
    missing, or holds text that is no date), every triangle area is NaN, no
    candidate beats the sentinel, and [downsampleLTTB] returns the first
    element of every bucket whatever the y values are. *)
Theorem downsampleLTTB_unusable_x
  (getTime : string -> float) (data : list DataPoint) (t : Z)
  (xKey yKey : option string) (xk yk : string) :
  t < len data ->
  bucketsInside (len data) (Z.max 3 t) = true ->
  resolveXKey data xKey = Ok xk ->
  resolveYKey data xk yKey = Ok yk ->
  (forall p, In p data -> xNum getTime (getField p xk) = nan) ->
  downsampleLTTB getTime data t xKey yKey
  = Ok (map (item data)
          (0 :: map (bucketStart (len data) (Z.max 3 t)) (range 0 (Z.max 3 t - 2))
             ++ [len data - 1])).
Proof.
  intros Hlt Hinside Hx Hy Hnan.
  destruct (bucket_loop_firsts getTime data xk yk (Z.max 3 t) ltac:(lia) Hinside Hnan)
    as (st & Hloop & Hpicked & _).
  apply downsampleIndices_sound. unfold downsampleIndices.
  destruct (len data <=? t) eqn:E; [apply Z.leb_le in E; lia |].
  unfold lttbRun. rewrite Hx. cbn [bind]. rewrite Hy. cbn [bind].
  rewrite Hloop. cbn [bind]. unfold push. cbn [picked]. rewrite Hpicked. reflexivity.
Qed.

(** Six records [{a, b}] with the y key [b] given: the x key falls back to
    [timestamp], which no record has, and the call returns the elements
    0, 1, 3, 5 although the largest [b] is at index 2. *)
Lemma downsampleLTTB_unusable_x_witness :
  downsampleLTTB Samples.clock
    Telemetry.sixUnkeyed
    4 None (Some "b")
  = Ok [Some (Samples.unkeyed 0 1); Some (Samples.unkeyed 1 1);
        Some (Samples.unkeyed 3 1); Some (Samples.unkeyed 5 1)].
Proof.
  apply (downsampleLTTB_unusable_x Samples.clock
           Telemetry.sixUnkeyed
           4 None (Some "b") "timestamp" "b").
  - vm_compute; reflexivity.
  - vm_compute; reflexivity.
  - vm_compute; reflexivity.
  - vm_compute; reflexivity.
  - intros p Hp. simpl in Hp.
    repeat (destruct Hp as [<- | Hp]; [vm_compute; reflexivity |]). destruct Hp.
Defined.

(** X7. With no y key supplied, a y key that resolves (lines 66-78) is not
    the empty string, differs from the x key, names a numeric field of the
    first record, and every key the enumeration visits before it is the x
    key or names a field that is not a number. *)
Theorem resolveYKey_picks_first_numeric
  (data : list DataPoint) (xKey : string) (yKey : option string)
  (p0 : DataPoint) (key : string) :
  supplied yKey = None ->
  item data 0 = Some p0 ->
  resolveYKey data xKey yKey = Ok key ->
  key <> ""
  /\ exists before after,
       keysOf p0 = before ++ key :: after
       /\ key <> xKey
       /\ isNumber (getField p0 key) = true
       /\ forall k, In k before -> k = xKey \/ isNumber (getField p0 k) = false.
Proof.
  intros Hy H0 H. rewrite (resolveYKey_inferred data p0 xKey yKey Hy H0) in H.
  destruct (firstNumericKey p0 xKey) as [k |] eqn:F; [| discriminate].
  destruct (k =? "")%string eqn:K; [discriminate |].
  inversion H; subst k. split; [now apply String.eqb_neq |].
  now apply firstNumericKey_first.
Qed.

(** Readings as data points, x key [timestamp]: the scan skips
    [timestamp] and stops at [voltage], before [temperature]. *)
Lemma resolveYKey_picks_first_numeric_witness :
  resolveYKey (map asDataPoint Samples.fourDated) "timestamp" None = Ok "voltage"
  /\ "voltage" <> ""
  /\ exists before after,
       keysOf (asDataPoint (mkReading "2024-01-01T00:00:00Z" (ofZ 12) (ofZ 25)))
       = before ++ "voltage" :: after
       /\ "voltage" <> "timestamp"
       /\ isNumber (getField (asDataPoint (mkReading "2024-01-01T00:00:00Z" (ofZ 12) (ofZ 25)))
                      "voltage") = true
       /\ forall k, In k before ->
            k = "timestamp"
            \/ isNumber (getField (asDataPoint (mkReading "2024-01-01T00:00:00Z" (ofZ 12) (ofZ 25)))
                           k) = false.
Proof.
  split; [vm_compute; reflexivity |].
  apply (resolveYKey_picks_first_numeric (map asDataPoint Samples.fourDated) "timestamp" None
           (asDataPoint (mkReading "2024-01-01T00:00:00Z" (ofZ 12) (ofZ 25))) "voltage");
    vm_compute; reflexivity.
Defined.

(** X8. The one error the sampler throws itself.  Above the threshold
    [downsampleLTTB] fails with the error of line 77 exactly when no y key
    is supplied, the x key resolves, and the scan of the first record for a
    numeric field other than the x key finds nothing or finds the field
    named by the empty string. *)
Theorem downsampleLTTB_ResolutionError_iff
  (getTime : string -> float) (data : list DataPoint) (t : Z)
  (xKey yKey : option string) :
  t < len data ->
  (downsampleLTTB getTime data t xKey yKey = Err ResolutionError
   <-> supplied yKey = None
       /\ exists xk,
            resolveXKey data xKey = Ok xk
            /\ forall p0 key,
                 item data 0 = Some p0 -> firstNumericKey p0 xk = Some key -> key = "").
Proof.
  intros Hlt. unfold downsampleLTTB.
  destruct (len data <=? t) eqn:E; [apply Z.leb_le in E; lia |].
  split.
  - intros H.
    assert (R : lttbRun getTime data t xKey yKey = Err ResolutionError).
    { destruct (lttbRun getTime data t xKey yKey); cbn [bind] in H;
        [discriminate | congruence]. }
    apply lttbRun_ResolutionError in R. destruct R as (xk & Hx & Hy).
    apply resolveYKey_fails in Hy. destruct Hy as (Hs & Hall). eauto.
  - intros (Hs & xk & Hx & Hall).
    assert (R : lttbRun getTime data t xKey yKey = Err ResolutionError).
    { apply lttbRun_ResolutionError. exists xk. split; [exact Hx |].
      apply resolveYKey_fails. split; assumption. }
    now rewrite R.
Qed.

(** Four records whose only fields are [time] and a label: nothing numeric
    is left for y, and the call fails. *)
Lemma downsampleLTTB_ResolutionError_iff_witness :
  3 < len Telemetry.labelled
  /\ downsampleLTTB Samples.clock
       Telemetry.labelled 3 None None
     = Err ResolutionError.
Proof.
  split; [vm_compute; reflexivity |].
  apply (downsampleLTTB_ResolutionError_iff Samples.clock
           Telemetry.labelled 3 None None).
  - vm_compute; reflexivity.
  - split; [reflexivity |]. exists "time". split; [vm_compute; reflexivity |].
    intros p0 key Hp Hf. inversion Hp; subst p0. vm_compute in Hf. discriminate.
Defined.

(** *** [downsampleMultiSeries] and [adaptiveSample] *)

(** X9. [downsampleMultiSeries] (lines 164-181) is [downsampleLTTB] on the
    first of the y keys, or with no y key when none is listed: the other
    keys never reach the sampler, and its own passthrough test changes
    nothing. *)
Theorem downsampleMultiSeries_first_key
  (getTime : string -> float) (data : list DataPoint) (t : Z)
  (xKey : option string) (yKeys : option (list string)) :
  downsampleMultiSeries getTime data t xKey yKeys
  = downsampleLTTB getTime data t xKey
      match yKeys with
      | Some (yKey :: _) => Some yKey
      | _ => None
      end.
Proof.
  unfold downsampleMultiSeries.
  destruct (len data <=? t) eqn:E.
  - unfold downsampleLTTB. now rewrite E.
  - destruct yKeys as [[| yKey rest] |]; reflexivity.
Qed.

(** X10. For an input of at least three elements a sequence returned by
    [adaptiveSample] (lines 204-217) is the input when it is no longer
    than the configured threshold, and has
    [min(len, max(3, targetPoints))] elements otherwise. *)
Theorem adaptiveSample_size
  (getTime : string -> float) (data : list DataPoint) (config : PartialConfig)
  (xKey yKey : option string) (out : list (option DataPoint)) :
  3 <= len data ->
  adaptiveSample getTime data config xKey yKey = Ok out ->
  if len data <=? threshold (spread DEFAULT_SAMPLING_CONFIG config)
  then out = map Some data
  else len out
       = Z.min (len data) (Z.max 3 (targetPoints (spread DEFAULT_SAMPLING_CONFIG config))).
Proof.
  intros H3. unfold adaptiveSample.
  destruct (len data <=? threshold (spread DEFAULT_SAMPLING_CONFIG config)).
  - intros H. now inversion H.
  - intros H. rewrite (downsampleLTTB_length_from_three _ _ _ _ _ _ H3 H).
    destruct (len data <=? _) eqn:E; [apply Z.leb_le in E; lia | reflexivity].
Qed.

(** Ten points under [{threshold: 5}]: the default target of 300 is above
    the length, and the ten points come back although they exceed the
    threshold. *)
Lemma adaptiveSample_size_witness :
  3 <= len (Samples.wave 10)
  /\ adaptiveSample Samples.clock (Samples.wave 10) (mkPartial (Some 5) None) None None
     = Ok (map Some (Samples.wave 10))
  /\ len (map Some (Samples.wave 10)) = Z.min (len (Samples.wave 10)) (Z.max 3 300).
Proof.
  split; [vm_compute; discriminate |].
  split; [vm_compute; reflexivity |].
  apply (adaptiveSample_size Samples.clock (Samples.wave 10) (mkPartial (Some 5) None)
           None None (map Some (Samples.wave 10))).
  - vm_compute; discriminate.
  - vm_compute; reflexivity.
Defined.

(** *** [sampleData] and the chart *)

(** X11. A sequence returned by [sampleData] (lines 229-295) is as long as
    the input when the input is no longer than the threshold, and has
    [max(2, threshold)] elements otherwise: there is no clamp to 3, and no
    cap at the length of the input. *)
Theorem sampleData_size
  (getTime : string -> float) (data : list BatteryReading) (t : Z)
  (out : list (option BatteryReading)) :
  sampleData getTime data t = Ok out ->
  len out = if len data <=? t then len data else Z.max 2 t.
Proof.
  intros H. destruct (len data <=? t) eqn:E.
  - apply Z.leb_le in E. rewrite sampleData_passthrough in H by assumption.
    inversion H; subst. unfold len. now rewrite length_map.
  - apply Z.leb_gt in E. eapply sampleData_length; eassumption.
Qed.

Lemma sampleData_size_witness :
  sampleData Samples.clock Samples.fourDated 3
  = Ok (map (item Samples.fourDated) [0; 2; 3])
  /\ len (map (item Samples.fourDated) [0; 2; 3])
     = if len Samples.fourDated <=? 3 then len Samples.fourDated else Z.max 2 3.
Proof.
  split; [vm_compute; reflexivity |].
  apply (sampleData_size Samples.clock Samples.fourDated 3).
  vm_compute; reflexivity.
Defined.

(** X12. Above the threshold a sequence returned by [sampleData] starts
    with [data[0]] and ends with [data[data.length - 1]]. *)
Theorem sampleData_keeps_endpoints
  (getTime : string -> float) (data : list BatteryReading) (t : Z)
  (out : list (option BatteryReading)) :
  t < len data ->
  sampleData getTime data t = Ok out ->
  item out 0 = Some (item data 0)
  /\ item out (len out - 1) = Some (item data (len data - 1)).
Proof.
  intros Hlt. unfold sampleData.
  destruct (len data <=? t) eqn:E; [apply Z.leb_le in E; lia |].
  intros H. unbind H. inversion H; subst; clear H.
  destruct (sampleRun_shape _ _ _ _ Ha) as (mid & -> & _).
  split; [reflexivity |].
  change (item data 0 :: mid ++ [item data (len data - 1)])
    with ((item data 0 :: mid) ++ [item data (len data - 1)]).
  apply item_last.
Qed.

Lemma sampleData_keeps_endpoints_witness :
  3 < len Samples.fourDated
  /\ sampleData Samples.clock Samples.fourDated 3
     = Ok (map (item Samples.fourDated) [0; 2; 3])
  /\ item (map (item Samples.fourDated) [0; 2; 3]) 0 = Some (item Samples.fourDated 0)
  /\ item (map (item Samples.fourDated) [0; 2; 3])
       (len (map (item Samples.fourDated) [0; 2; 3]) - 1)
     = Some (item Samples.fourDated (len Samples.fourDated - 1)).
Proof.
  split; [vm_compute; reflexivity |].
  split; [vm_compute; reflexivity |].
  apply (sampleData_keeps_endpoints Samples.clock Samples.fourDated 3);
    vm_compute; reflexivity.
Defined.

(** X13. A threshold of 2 or less that the input exceeds: the loop does
    not run, and [sampleData] returns the two ends, whatever the readings
    are.  For a single reading and a threshold of 0 these are two copies of
    it; for no reading and a negative threshold, [undefined] twice. *)
Theorem sampleData_two_ends
  (getTime : string -> float) (data : list BatteryReading) (t : Z) :
  t < len data -> t <= 2 ->
  sampleData getTime data t = Ok [item data 0; item data (len data - 1)].
Proof.
  intros Hlt H2. unfold sampleData, sampleRun.
  destruct (len data <=? t) eqn:E; [apply Z.leb_le in E; lia |].
  unfold range. replace (Z.to_nat (t - 2 - 0)) with 0%nat by lia.
  reflexivity.
Qed.

Lemma sampleData_two_ends_witness :
  sampleData Samples.clock [Samples.undated 12] 0
  = Ok [Some (Samples.undated 12); Some (Samples.undated 12)]
  /\ sampleData Samples.clock [] (-1) = Ok [None; None].
Proof.
  split.
  - apply (sampleData_two_ends Samples.clock [Samples.undated 12] 0);
      vm_compute; first [reflexivity | discriminate].
  - apply (sampleData_two_ends Samples.clock [] (-1));
      vm_compute; first [reflexivity | discriminate].
Defined.

(** X14. Above a threshold of at least 3 whose buckets stay inside the
    array, [sampleData] returns, and what it returns are [threshold]
    readings of the input: no element is [undefined]. *)
Theorem sampleData_returns_readings
  (getTime : string -> float) (data : list BatteryReading) (t : Z) :
  3 <= t -> t < len data ->
  bucketsInside (len data) t = true ->
  exists out,
    sampleData getTime data t = Ok (map Some out)
    /\ len out = t
    /\ Forall (fun r => In r data) out.
Proof.
  intros Ht Hlt Hinside.
  destruct (sampleIndices_inside getTime data t Ht Hinside Hlt)
    as (mids & Hidx & Hlen & _ & Hall).
  apply sampleIndices_sound in Hidx.
  destruct (items_defined data _ Hall) as (out & Hmap & Hin & Hout).
  exists out. rewrite <- Hmap. split; [exact Hidx |]. split; [| exact Hin].
  unfold len in *. rewrite Hout. simpl. rewrite length_app. simpl. lia.
Qed.

Lemma sampleData_returns_readings_witness :
  3 < len Samples.fourDated
  /\ bucketsInside (len Samples.fourDated) 3 = true
  /\ exists out,
       sampleData Samples.clock Samples.fourDated 3 = Ok (map Some out)
       /\ len out = 3
       /\ Forall (fun r => In r Samples.fourDated) out.
Proof.
  split; [vm_compute; reflexivity |].
  split; [vm_compute; reflexivity |].
  apply (sampleData_returns_readings Samples.clock Samples.fourDated 3);
    vm_compute; first [reflexivity | discriminate].
Defined.

(** X15. Under the same conditions the source indices of what [sampleData]
    returns are 0, then for each bucket in turn an index of that bucket or
    0 again, then the last index.  (The selection starts from index 0, not
    from the start of the bucket, so a bucket none of whose areas beats the
    sentinel yields [data[0]].) *)
Theorem sampleData_one_per_bucket_or_first
  (getTime : string -> float) (data : list BatteryReading) (t : Z) :
  3 <= t -> t < len data ->
  bucketsInside (len data) t = true ->
  exists mids,
    sampleIndices getTime data t = Ok (0 :: mids ++ [len data - 1])
    /\ sampleData getTime data t = Ok (map (item data) (0 :: mids ++ [len data - 1]))
    /\ len mids = t - 2
    /\ forall b j, item mids b = Some j -> j = 0 \/ inBucket (len data) t b j = true.
Proof.
  intros Ht Hlt Hinside.
  destruct (sampleIndices_inside getTime data t Ht Hinside Hlt)
    as (mids & Hidx & Hlen & Hok & _).
  exists mids. split; [exact Hidx |].
  split; [apply sampleIndices_sound; exact Hidx |]. split; assumption.
Qed.

Lemma sampleData_one_per_bucket_or_first_witness :
  3 < len Samples.fourDated
  /\ bucketsInside (len Samples.fourDated) 3 = true
  /\ exists mids,
       sampleIndices Samples.clock Samples.fourDated 3
       = Ok (0 :: mids ++ [len Samples.fourDated - 1])
       /\ sampleData Samples.clock Samples.fourDated 3
          = Ok (map (item Samples.fourDated) (0 :: mids ++ [len Samples.fourDated - 1]))
       /\ len mids = 3 - 2
       /\ forall b j, item mids b = Some j ->
            j = 0 \/ inBucket (len Samples.fourDated) 3 b j = true.
Proof.
  split; [vm_compute; reflexivity |].
  split; [vm_compute; reflexivity |].
  apply (sampleData_one_per_bucket_or_first Samples.clock Samples.fourDated 3);
    vm_compute; first [reflexivity | discriminate].
Defined.

(** X16. A first reading with a timestamp that is no date, or with a NaN
    voltage: every area measured from it is NaN, the selection keeps index
    0 in every bucket, and [sampleData] returns [threshold - 1] copies of
    the first reading followed by the last reading. *)
Theorem sampleData_first_reading_poisons
  (getTime : string -> float) (data : list BatteryReading) (t : Z)
  (first : BatteryReading) :
  3 <= t -> t < len data ->
  bucketsInside (len data) t = true ->
  item data 0 = Some first ->
  getTime (timestamp first) = nan \/ voltage first = nan ->
  sampleData getTime data t
  = Ok (repeat (Some first) (Z.to_nat (t - 1)) ++ [item data (len data - 1)]).
Proof.
  intros Ht Hlt Hinside Hfirst Hnan.
  destruct (forEach_counting (stuck first) (sampleStep getTime data t) (t - 2)
              (Z.to_nat (t - 2 - 0)) 0 eq_refl ltac:(lia))
    with (s := push data 0 (mkLoop [] [] 0)) as (st & Hloop & Hsampled & _).
  - intros i st Hi. apply sampleStep_stuck; assumption.
  - unfold stuck, push; cbn [sampled prevSelectedIndex app]. rewrite Hfirst.
    split; reflexivity.
  - unfold sampleData, sampleRun.
    destruct (len data <=? t) eqn:E; [apply Z.leb_le in E; lia |].
    rewrite Hloop. cbn [bind]. unfold push. cbn [sampled]. rewrite Hsampled.
    replace (t - 2 + 1) with (t - 1) by lia. reflexivity.
Qed.

(** Four readings whose timestamps are no dates, threshold 3: the first
    reading twice, then the last. *)
Lemma sampleData_first_reading_poisons_witness :
  sampleData Samples.clock Samples.fourUndated 3
  = Ok [Some (Samples.undated 12); Some (Samples.undated 12); Some (Samples.undated 12)].
Proof.
  apply (sampleData_first_reading_poisons Samples.clock Samples.fourUndated 3
           (Samples.undated 12)).
  - vm_compute; discriminate.
  - vm_compute; reflexivity.
  - vm_compute; reflexivity.
  - vm_compute; reflexivity.
  - left. vm_compute; reflexivity.
Defined.

(** X17. The selection loop of [sampleData] (lines 269-286) over the
    candidates [lo .. hi - 1], when it returns [(m, k)]: either every
    candidate's area is NaN and the loop keeps its start, area [-1] and
    index 0; or [k] is a candidate, [m] is its area, no candidate has a
    larger area, and no earlier candidate has an area as large. *)
Theorem sampleData_selection_takes_largest
  (getTime : string -> float) (data : list BatteryReading)
  (pointAX pointAY avgX avgY : float) (lo hi : Z) (m : float) (k : Z) :
  forEach (areaStep getTime data pointAX pointAY avgX avgY) (range lo hi) ((-1)%float, 0)
  = Ok (m, k) ->
  (m = (-1)%float /\ k = 0
   /\ forall j, lo <= j < hi -> chartArea getTime data pointAX pointAY avgX avgY j = nan)
  \/ (lo <= k < hi
      /\ m = chartArea getTime data pointAX pointAY avgX avgY k
      /\ (forall j, lo <= j < hi ->
            (chartArea getTime data pointAX pointAY avgX avgY k
             <? chartArea getTime data pointAX pointAY avgX avgY j)%float = false)
      /\ (forall j, lo <= j < k ->
            (chartArea getTime data pointAX pointAY avgX avgY k
             <=? chartArea getTime data pointAX pointAY avgX avgY j)%float = false)).
Proof.
  intros H.
  apply (largest_wins_range (chartArea getTime data pointAX pointAY avgX avgY)) in H.
  - destruct H as [(Heq & Hnone) | H]; [left | right; exact H].
    inversion Heq; subst. repeat split. intros j Hj.
    specialize (Hnone j Hj). cbn [fst] in Hnone.
    apply unsigned_beats_sentinel; [| exact Hnone].
    unfold chartArea. destruct (item data j); [apply abs_half_unsigned | exact I].
  - intros j [maxArea idx] r _ Hr. unfold areaStep, readingAt in Hr.
    unfold chartArea. destruct (item data j) as [p |]; [| discriminate].
    cbn [bind] in Hr. cbn [fst]. destruct (_ <? _)%float; congruence.
Qed.

(** Four readings a minute apart, measured from the first reading against
    the last: the candidates 1 and 2 have the areas 90000 and 180000, and
    the loop returns the second. *)
Lemma sampleData_selection_takes_largest_witness :
  forEach (areaStep Samples.clock Samples.fourDated
             (ofZ 1704067200000) (ofZ 12) (ofZ 1704067380000) (ofZ 12))
    (range 1 3) ((-1)%float, 0)
  = Ok (ofZ 180000, 2)
  /\ ((ofZ 180000 = (-1)%float /\ 2 = 0
       /\ forall j, 1 <= j < 3 ->
            chartArea Samples.clock Samples.fourDated
              (ofZ 1704067200000) (ofZ 12) (ofZ 1704067380000) (ofZ 12) j = nan)
      \/ (1 <= 2 < 3
          /\ ofZ 180000 = chartArea Samples.clock Samples.fourDated
                            (ofZ 1704067200000) (ofZ 12) (ofZ 1704067380000) (ofZ 12) 2
          /\ (forall j, 1 <= j < 3 ->
                (chartArea Samples.clock Samples.fourDated
                   (ofZ 1704067200000) (ofZ 12) (ofZ 1704067380000) (ofZ 12) 2
                 <? chartArea Samples.clock Samples.fourDated
                      (ofZ 1704067200000) (ofZ 12) (ofZ 1704067380000) (ofZ 12) j)%float
                = false)
          /\ (forall j, 1 <= j < 2 ->
                (chartArea Samples.clock Samples.fourDated
                   (ofZ 1704067200000) (ofZ 12) (ofZ 1704067380000) (ofZ 12) 2
                 <=? chartArea Samples.clock Samples.fourDated
                       (ofZ 1704067200000) (ofZ 12) (ofZ 1704067380000) (ofZ 12) j)%float
                = false))).
Proof.
  split; [vm_compute; reflexivity |].
  apply (sampleData_selection_takes_largest Samples.clock Samples.fourDated
           (ofZ 1704067200000) (ofZ 12) (ofZ 1704067380000) (ofZ 12) 1 3 (ofZ 180000) 2).
  vm_compute; reflexivity.
Defined.

(** X18. The chart (BatteryCharts.tsx, lines 27-40).  For readings that
    are at most 500, or whose 498 buckets stay inside the array, the chart
    plots [min(len, 500)] readings, all of them readings of the input; and
    when it draws dots the plotted readings are all the readings. *)
Theorem chart_plots_readings
  (getTime : string -> float) (readings : list BatteryReading) :
  len readings <= 500 \/ bucketsInside (len readings) 500 = true ->
  exists out,
    sampledReadings getTime readings = Ok (map Some out)
    /\ len out = Z.min (len readings) 500
    /\ Forall (fun r => In r readings) out
    /\ (showDots readings = true -> out = readings).
Proof.
  intros H. unfold sampledReadings, showDots, shouldShowDots.
  destruct (Z_le_gt_dec (len readings) 500) as [Hle | Hgt].
  - exists readings. split; [now apply sampleData_passthrough |].
    split; [lia |]. split; [| reflexivity].
    apply Forall_forall. auto.
  - destruct H as [H | Hinside]; [lia |].
    destruct (sampleIndices_inside getTime readings 500 ltac:(lia) Hinside ltac:(lia))
      as (mids & Hidx & Hlen & _ & Hall).
    apply sampleIndices_sound in Hidx.
    destruct (items_defined readings _ Hall) as (out & Hmap & Hin & Hout).
    exists out. rewrite <- Hmap. split; [exact Hidx |].
    split; [| split; [exact Hin |]].
    + unfold len in *. rewrite Hout. simpl. rewrite length_app. simpl. lia.
    + intros Hdots. apply Z.leb_le in Hdots. lia.
Qed.

(** 2000 readings: the chart plots 500 of them. *)
Lemma chart_plots_readings_witness :
  bucketsInside (len (Telemetry.undatedRun 2000)) 500 = true
  /\ exists out,
       sampledReadings Samples.clock (Telemetry.undatedRun 2000) = Ok (map Some out)
       /\ len out = Z.min (len (Telemetry.undatedRun 2000)) 500
       /\ Forall (fun r => In r (Telemetry.undatedRun 2000)) out
       /\ (showDots (Telemetry.undatedRun 2000) = true -> out = Telemetry.undatedRun 2000).
Proof.
  split; [vm_compute; reflexivity |].
  apply (chart_plots_readings Samples.clock (Telemetry.undatedRun 2000)).
  right. vm_compute; reflexivity.
Defined.

(** *** The buckets *)

(** X19. Where the binary64 boundaries of lines 86-94 agree with the exact
    ones ([roundsExactly], a check on the length and the target size
    alone), the buckets are the partition the design describes: every
    interior index lies in exactly one bucket, and any two buckets differ
    in size by at most one. *)
Theorem buckets_partition_when_exact (n t : Z) :
  3 <= t -> t < n ->
  roundsExactly n t = true ->
  (forall x, 1 <= x <= n - 2 ->
     exists i, 0 <= i < t - 2
               /\ inBucket n t i x = true
               /\ forall j, 0 <= j < t - 2 -> inBucket n t j x = true -> j = i)
  /\ (forall i j, 0 <= i < t - 2 -> 0 <= j < t - 2 ->
        Z.abs ((bucketEnd n t i - bucketStart n t i)
               - (bucketEnd n t j - bucketStart n t j)) <= 1).
Proof.
  intros Ht Hn H. split.
  - intros x Hx. destruct (exact_cover n t Ht Hn x Hx) as (i & Hi & Hin).
    exists i. split; [exact Hi |].
    destruct (roundsExactly_buckets n t i H Hi) as (Es & Ee & _).
    split; [apply inBucket_spec; rewrite Es, Ee; exact Hin |].
    intros j Hj Hjn. apply inBucket_spec in Hjn.
    destruct (roundsExactly_buckets n t j H Hj) as (Fs & Fe & _).
    rewrite Fs, Fe in Hjn.
    apply (exact_cover_unique n t Ht Hn x j i); assumption.
  - intros i j Hi Hj.
    destruct (roundsExactly_buckets n t i H Hi) as (Es & Ee & _).
    destruct (roundsExactly_buckets n t j H Hj) as (Fs & Fe & _).
    rewrite Es, Ee, Fs, Fe. apply exact_balanced; assumption.
Qed.

(** 2000 readings on the chart's 500 points. *)
Lemma buckets_partition_when_exact_witness :
  roundsExactly 2000 500 = true
  /\ (forall x, 1 <= x <= 2000 - 2 ->
        exists i, 0 <= i < 500 - 2
                  /\ inBucket 2000 500 i x = true
                  /\ forall j, 0 <= j < 500 - 2 -> inBucket 2000 500 j x = true -> j = i)
  /\ (forall i j, 0 <= i < 500 - 2 -> 0 <= j < 500 - 2 ->
        Z.abs ((bucketEnd 2000 500 i - bucketStart 2000 500 i)
               - (bucketEnd 2000 500 j - bucketStart 2000 500 j)) <= 1).
Proof.
  split; [vm_compute; reflexivity |].
  apply (buckets_partition_when_exact 2000 500).
  - vm_compute; discriminate.
  - vm_compute; reflexivity.
  - vm_compute; reflexivity.
Defined.

(** X20. Under the same check the range averaged for a bucket (lines
    96-98 and 248-252) is never empty, so the sum the samplers divide is a
    sum over at least one point; for the last bucket it is the last index
    alone. *)
Theorem next_bucket_nonempty_when_exact (n t : Z) :
  3 <= t -> t < n ->
  roundsExactly n t = true ->
  (forall i, 0 <= i < t - 2 -> nextBucketStart n t i < nextBucketEnd n t i)
  /\ nextBucketStart n t (t - 3) = n - 1
  /\ nextBucketEnd n t (t - 3) = n.
Proof.
  intros Ht Hn H. split.
  - intros i Hi.
    destruct (roundsExactly_buckets n t i H Hi) as (_ & _ & Es & Ee).
    rewrite Es, Ee. apply exact_next_nonempty; assumption.
  - destruct (roundsExactly_buckets n t (t - 3) H ltac:(lia)) as (_ & _ & Es & Ee).
    rewrite Es, Ee. apply exact_next_last; assumption.
Qed.

Lemma next_bucket_nonempty_when_exact_witness :
  roundsExactly 2000 500 = true
  /\ (forall i, 0 <= i < 500 - 2 -> nextBucketStart 2000 500 i < nextBucketEnd 2000 500 i)
  /\ nextBucketStart 2000 500 (500 - 3) = 2000 - 1
  /\ nextBucketEnd 2000 500 (500 - 3) = 2000.
Proof.
  split; [vm_compute; reflexivity |].
  apply (next_bucket_nonempty_when_exact 2000 500).
  - vm_compute; discriminate.
  - vm_compute; reflexivity.
  - vm_compute; reflexivity.
Defined.

(** *** The health badge *)

(** X21. The panel and the PDF report label a score alike, and the bands
    are those of the nested tests: Excellent from 80, Good from 60 to
    below 80, Fair from 40 to below 60, and Poor for every score that is
    not at least 40, NaN included.  The badge is green exactly for
    Excellent, yellow exactly for Good and red for Fair and Poor, in the
    panel's classes and in the report's RGB triples. *)
Theorem health_badge_bands (score : float) :
  PdfExport.healthLabel score = AnalysisPanel.getHealthLabel score
  /\ (AnalysisPanel.getHealthLabel score = "Excellent" <-> (80 <=? score)%float = true)
  /\ (AnalysisPanel.getHealthLabel score = "Good"
      <-> (60 <=? score)%float = true /\ (80 <=? score)%float = false)
  /\ (AnalysisPanel.getHealthLabel score = "Fair"
      <-> (40 <=? score)%float = true /\ (60 <=? score)%float = false)
  /\ (AnalysisPanel.getHealthLabel score = "Poor" <-> (40 <=? score)%float = false)
  /\ (AnalysisPanel.getHealthColor score = "bg-green-500"
      <-> AnalysisPanel.getHealthLabel score = "Excellent")
  /\ (AnalysisPanel.getHealthColor score = "bg-yellow-500"
      <-> AnalysisPanel.getHealthLabel score = "Good")
  /\ (AnalysisPanel.getHealthColor score = "bg-red-500"
      <-> AnalysisPanel.getHealthLabel score = "Fair"
          \/ AnalysisPanel.getHealthLabel score = "Poor")
  /\ (PdfExport.healthColor score = (34, 197, 94)
      <-> AnalysisPanel.getHealthColor score = "bg-green-500")
  /\ (PdfExport.healthColor score = (234, 179, 8)
      <-> AnalysisPanel.getHealthColor score = "bg-yellow-500")
  /\ (PdfExport.healthColor score = (239, 68, 68)
      <-> AnalysisPanel.getHealthColor score = "bg-red-500").
Proof.
  assert (H86 : (80 <=? score)%float = true -> (60 <=? score)%float = true).
  { apply leb_trans. vm_compute; reflexivity. }
  assert (H64 : (60 <=? score)%float = true -> (40 <=? score)%float = true).
  { apply leb_trans. vm_compute; reflexivity. }
  unfold PdfExport.healthLabel, PdfExport.healthColor,
    AnalysisPanel.getHealthLabel, AnalysisPanel.getHealthColor.
  destruct (80 <=? score)%float eqn:E80; [pose proof (H86 eq_refl) as E'; rewrite E' in *;
                                         pose proof (H64 eq_refl) as E''; rewrite E'' in * |];
    [| destruct (60 <=? score)%float eqn:E60; [pose proof (H64 eq_refl) as E''; rewrite E'' in * |];
       [| destruct (40 <=? score)%float eqn:E40]];
    repeat split; intros; try reflexivity; try discriminate;
      try (match goal with H : _ /\ _ |- _ => destruct H end; discriminate);
      try (match goal with H : _ \/ _ |- _ => destruct H end; discriminate);
      try (now left); try (now right).
Qed.

(** *** Sampling twice *)

(** X22. With a threshold of at least 3, a sequence [downsampleLTTB]
    returned without [undefined] elements is short enough for the same
    threshold: sampling it again, with any keys, returns it unchanged. *)
Theorem downsampleLTTB_idempotent
  (getTime : string -> float) (data out : list DataPoint) (t : Z)
  (xKey yKey xKey' yKey' : option string) :
  3 <= t ->
  downsampleLTTB getTime data t xKey yKey = Ok (map Some out) ->
  downsampleLTTB getTime out t xKey' yKey' = Ok (map Some out).
Proof.
  intros Ht H. apply downsampleLTTB_passthrough.
  destruct (Z_le_gt_dec (len data) t) as [Hle | Hgt].
  - rewrite downsampleLTTB_passthrough in H by assumption.
    inversion H as [E]. apply (f_equal (@List.length _)) in E.
    rewrite !length_map in E. unfold len in *. lia.
  - apply downsampleLTTB_length in H; [| lia].
    unfold len in *. rewrite length_map in H. lia.
Qed.

(** Ten points reduced to five, and the five sampled again. *)
Lemma downsampleLTTB_idempotent_witness :
  downsampleLTTB Samples.clock (Samples.wave 10) 5 None None
  = Ok (map Some [Samples.point 0 0; Samples.point 2 4; Samples.point 5 4;
                  Samples.point 7 0; Samples.point 9 4])
  /\ downsampleLTTB Samples.clock
       [Samples.point 0 0; Samples.point 2 4; Samples.point 5 4;
        Samples.point 7 0; Samples.point 9 4] 5 None None
     = Ok (map Some [Samples.point 0 0; Samples.point 2 4; Samples.point 5 4;
                     Samples.point 7 0; Samples.point 9 4]).
Proof.
  split; [vm_compute; reflexivity |].
  apply (downsampleLTTB_idempotent Samples.clock (Samples.wave 10)
           [Samples.point 0 0; Samples.point 2 4; Samples.point 5 4;
            Samples.point 7 0; Samples.point 9 4] 5 None None None None).
  - vm_compute; discriminate.
  - vm_compute; reflexivity.
Defined.

(** X23. The same for [sampleData], from a threshold of 2. *)
Theorem sampleData_idempotent
  (getTime : string -> float) (data out : list BatteryReading) (t : Z) :
  2 <= t ->
  sampleData getTime data t = Ok (map Some out) ->
  sampleData getTime out t = Ok (map Some out).
Proof.
  intros Ht H. apply sampleData_passthrough.
  destruct (Z_le_gt_dec (len data) t) as [Hle | Hgt].
  - rewrite sampleData_passthrough in H by assumption.
    inversion H as [E]. apply (f_equal (@List.length _)) in E.
    rewrite !length_map in E. unfold len in *. lia.
  - apply sampleData_length in H; [| lia].
    unfold len in *. rewrite length_map in H. lia.
Qed.

(** Four readings reduced to three, and the three sampled again. *)
Lemma sampleData_idempotent_witness :
  sampleData Samples.clock Samples.fourDated 3
  = Ok (map Some [mkReading "2024-01-01T00:00:00Z" (ofZ 12) (ofZ 25);
                  mkReading "2024-01-01T00:02:00Z" (ofZ 14) (ofZ 26);
                  mkReading "2024-01-01T00:03:00Z" (ofZ 12) (ofZ 27)])
  /\ sampleData Samples.clock
       [mkReading "2024-01-01T00:00:00Z" (ofZ 12) (ofZ 25);
        mkReading "2024-01-01T00:02:00Z" (ofZ 14) (ofZ 26);
        mkReading "2024-01-01T00:03:00Z" (ofZ 12) (ofZ 27)] 3
     = Ok (map Some [mkReading "2024-01-01T00:00:00Z" (ofZ 12) (ofZ 25);
                     mkReading "2024-01-01T00:02:00Z" (ofZ 14) (ofZ 26);
                     mkReading "2024-01-01T00:03:00Z" (ofZ 12) (ofZ 27)]).
Proof.
  split; [vm_compute; reflexivity |].
  apply (sampleData_idempotent Samples.clock Samples.fourDated
           [mkReading "2024-01-01T00:00:00Z" (ofZ 12) (ofZ 25);
            mkReading "2024-01-01T00:02:00Z" (ofZ 14) (ofZ 26);
            mkReading "2024-01-01T00:03:00Z" (ofZ 12) (ofZ 27)] 3).
  - vm_compute; discriminate.
  - vm_compute; reflexivity.
Defined.
